(** * component-cli: the component-archive [init] and [resources add] commands

    A shallow embedding of [pkg/commands/componentarchive/init.go] and
    [pkg/commands/componentarchive/resources/add.go].  Go structs become
    records, [error] values an inductive type, the [vfs.FileSystem] interface
    a type class, and the code that mutates the archive and the file system
    threads both through explicitly. *)

From stdpp Require Import base option list gmap strings.
From Stdlib Require Import ZArith.

Local Open Scope string_scope.
Local Open Scope list_scope.
Local Open Scope Z_scope.

(** ** Errors *)

(** Go [error] values.  [Errorf msg] is [fmt.Errorf] with the formatted
    message, [Wrap msg cause] the same with an error wrapped by [%w];
    [Aggregate] is [field.ErrorList.ToAggregate] over the messages of the
    field errors; [Panic] is a run-time panic (an index out of range). *)
Inductive Error : Type :=
  | io_EOF
  | ErrNotExist (path : string)
  | ErrOther (msg : string)
  | Errorf (msg : string)
  | Wrap (msg : string) (cause : Error)
  | Aggregate (errs : list string)
  | Panic (msg : string).

(** [err == io.EOF] *)
Definition is_EOF (err : Error) : bool :=
  match err with io_EOF => true | _ => false end.

(** [os.IsNotExist(err)] *)
Definition os_IsNotExist (err : Error) : bool :=
  match err with ErrNotExist _ => true | _ => false end.

(** The quotation mark put around a [%q] argument. *)
Definition dquote : string := String (Ascii.ascii_of_nat 34) EmptyString.

(** [%q] of a string (escapes inside the argument are not modelled). *)
Definition fmt_q (s : string) : string := dquote +:+ s +:+ dquote.

(** [filepath.Join] of two elements: empty elements are ignored (the
    clean-up of dots and doubled separators is not modelled). *)
Definition filepath_Join (a b : string) : string :=
  if decide (a = EmptyString) then b
  else if decide (b = EmptyString) then a
  else a +:+ "/" +:+ b.

(** ** The component descriptor ([cdv2]) *)

Module cdv2.

Definition LocalRelation : string := "local".
Definition ExternalRelation : string := "external".
Definition InternalProvider : string := "internal".
Definition OCIRegistryType : string := "ociRegistry".

Record UnstructuredTypedObject : Type := {
  ObjectType : string;
  Raw : string
}.

Record RepositoryContext : Type := {
  RCType : string;
  BaseURL : string
}.

(** [Resource] with its embedded [IdentityObjectMeta] flattened. *)
Record Resource : Type := {
  Name : string;
  Version : string;
  Type_ : string;
  ExtraIdentity : gmap string string;
  Labels : list (string * string);
  Relation : string;
  Access : option UnstructuredTypedObject
}.

Record Source : Type := {
  SrcName : string;
  SrcVersion : string;
  SrcType : string;
  SrcExtraIdentity : gmap string string
}.

Record ComponentReference : Type := {
  RefName : string;
  ComponentName : string;
  RefVersion : string;
  RefExtraIdentity : gmap string string
}.

Record ComponentDescriptor : Type := {
  MetadataVersion : string;
  CDName : string;
  CDVersion : string;
  Provider : string;
  RepositoryContexts : list RepositoryContext;
  Sources : list Source;
  ComponentReferences : list ComponentReference;
  Resources : list Resource
}.

#[global] Instance UnstructuredTypedObject_eq_dec : EqDecision UnstructuredTypedObject.
Proof. solve_decision. Defined.
#[global] Instance RepositoryContext_eq_dec : EqDecision RepositoryContext.
Proof. solve_decision. Defined.
#[global] Instance Resource_eq_dec : EqDecision Resource.
Proof. solve_decision. Defined.

(** [cd.GetVersion()] *)
Definition GetVersion (cd : ComponentDescriptor) : string := CDVersion cd.

Definition set_Version (v : string) (r : Resource) : Resource :=
  {| Name := Name r; Version := v; Type_ := Type_ r;
     ExtraIdentity := ExtraIdentity r; Labels := Labels r;
     Relation := Relation r; Access := Access r |}.

Definition set_Resources (rs : list Resource) (cd : ComponentDescriptor)
  : ComponentDescriptor :=
  {| MetadataVersion := MetadataVersion cd; CDName := CDName cd;
     CDVersion := CDVersion cd; Provider := Provider cd;
     RepositoryContexts := RepositoryContexts cd; Sources := Sources cd;
     ComponentReferences := ComponentReferences cd; Resources := rs |}.

Definition set_RepositoryContexts (rc : list RepositoryContext)
    (cd : ComponentDescriptor) : ComponentDescriptor :=
  {| MetadataVersion := MetadataVersion cd; CDName := CDName cd;
     CDVersion := CDVersion cd; Provider := Provider cd;
     RepositoryContexts := rc; Sources := Sources cd;
     ComponentReferences := ComponentReferences cd;
     Resources := Resources cd |}.

(** Modelled from the spec: the identity of an entry is not computed in the
    sources (it lives in the descriptor bindings); the data model composes
    it of name, version, type and the extraIdentity pairs, and never of
    relation, access or input. *)
Definition GetIdentity (r : Resource)
  : string * string * string * gmap string string :=
  (Name r, Version r, Type_ r, ExtraIdentity r).

(** Two entries are the same identity iff all four components agree. *)
Definition sameIdentity (a b : Resource) : Prop :=
  GetIdentity a = GetIdentity b.

#[global] Instance sameIdentity_dec a b : Decision (sameIdentity a b).
Proof. unfold sameIdentity. apply _. Defined.

(** Modelled from the spec: [GetResourceIndex] is called by [Run] but
    defined in the descriptor bindings; the merge engine scans the
    collection for an existing entry with the same identity and reports
    its position, and the caller tests the result against [-1]. *)
Definition GetResourceIndex (cd : ComponentDescriptor) (res : Resource) : Z :=
  match list_find (fun cur => sameIdentity cur res) (Resources cd) with
  | Some (i, _) => Z.of_nat i
  | None => -1
  end.

(** Modelled from the spec: [DefaultComponent] is defined in the descriptor
    bindings; init builds a descriptor with empty collections, so absent
    collections become empty ones.  Lists here have no absent state, hence
    the descriptor comes back as it is and no error arises. *)
Definition DefaultComponent (cd : ComponentDescriptor)
  : Error + ComponentDescriptor := inr cd.

End cdv2.

(** ** [cdutils] *)

Module cdutils.
Import cdv2.

(** Modelled from the spec: [MergeResources] is defined in the descriptor
    bindings.  The result keeps the incoming entry's identity; every other
    field is taken from the incoming entry if non-empty / non-nil, else
    from the existing entry. *)
Definition MergeResources (a b : Resource) : Resource :=
  {| Name := Name b;
     Version := Version b;
     Type_ := Type_ b;
     ExtraIdentity := ExtraIdentity b;
     Labels := match Labels b with [] => Labels a | _ :: _ => Labels b end;
     Relation := if decide (Relation b = EmptyString) then Relation a
                 else Relation b;
     Access := match Access b with None => Access a | Some _ => Access b end
  |}.

End cdutils.

(** ** [utils] *)

Module utils.
Import cdv2.

(** Modelled from the spec: [AddRepositoryContext] is defined in the
    utilities of the command line; it appends [{type, baseURL}] unless an
    identical entry already exists, and keeps the order of the others. *)
Definition AddRepositoryContext (contexts : list RepositoryContext)
    (type baseURL : string) : list RepositoryContext :=
  let rc := {| RCType := type; BaseURL := baseURL |} in
  if decide (rc ∈ contexts) then contexts else contexts ++ [rc].

End utils.

(** ** The file system interface ([vfs.FileSystem]) *)

Definition FileMode : Type := Z.

Record FileInfo : Type := { IsDir : bool }.

(** The methods of [vfs.FileSystem] the two commands reach, with the state of
    the file system passed in and out.  [Rename] is part of the interface. *)
Class FileSystem (FS Data : Type) : Type := {
  Stat : FS -> string -> Error + FileInfo;
  MkdirAll : FS -> string -> FileMode -> option Error * FS;
  Open : FS -> string -> Error + Data;
  WriteFile : FS -> string -> Data -> FileMode -> option Error * FS;
  Rename : FS -> string -> string -> option Error * FS
}.

(** What the commands rely on between two calls on a file system: a file
    that was written reads back as written, a directory that [MkdirAll]
    made is a directory, and writing a file leaves a directory a
    directory. *)
Record FileSystemLaws (FS Data : Type) `{!FileSystem FS Data} : Prop := {
  Open_after_WriteFile :
    forall (fs fs' : FS) (path : string) (data : Data) (perm : FileMode),
      WriteFile fs path data perm = (None, fs') -> Open fs' path = inr data;
  Stat_after_MkdirAll :
    forall (fs fs' : FS) (path : string) (perm : FileMode),
      MkdirAll fs path perm = (None, fs') ->
      Stat fs' path = inr {| IsDir := true |};
  Stat_dir_after_WriteFile :
    forall (fs fs' : FS) (dir path : string) (data : Data) (perm : FileMode),
      WriteFile fs path data perm = (None, fs') ->
      Stat fs dir = inr {| IsDir := true |} ->
      Stat fs' dir = inr {| IsDir := true |}
}.

Module ctf.
Definition ComponentDescriptorFileName : string := "component-descriptor.yaml".

Record BlobInfo : Type := {
  MediaType : string;
  Digest : string;
  Size : Z
}.
End ctf.

(** ** [input] *)

Module input.
Record BlobInput : Type := {
  InputType : string;
  Path : string;
  CompressWithGzip : bool;
  ExcludeFiles : string
}.

(** What [BlobInput.Read] hands back: digest, size and an open reader,
    whose [Close] may fail. *)
Record BlobOutput : Type := {
  BlobDigest : string;
  BlobSize : Z;
  BlobReader : string;
  BlobClose : option Error
}.
End input.

(** ** State and errors

    A Go function that takes the archive or the file system and returns an
    [error] is a computation over the state [S] that yields an error or a
    value together with the state it leaves behind. *)

Definition M (S A : Type) : Type := S -> (Error + A) * S.

Definition ret {S A} (a : A) : M S A := fun s => (inr a, s).

Definition bind {S A B} (m : M S A) (k : A -> M S B) : M S B := fun s =>
  match m s with
  | (inl err, s') => (inl err, s')
  | (inr a, s') => k a s'
  end.

Declare Scope M_scope.
Delimit Scope M_scope with M.
Notation "x ← y ; z" := (bind y (fun x => z))
  (at level 20, y at level 100, z at level 200, only parsing) : M_scope.
Notation "x ;; z" := (bind x (fun _ => z))
  (at level 100, z at level 200, only parsing, right associativity) : M_scope.
Local Open Scope M_scope.

(** [return err] *)
Definition throw {S A} (err : Error) : M S A := fun s => (inl err, s).

(** Read the state. *)
Definition get {S} : M S S := fun s => (inr s, s).

(** A call that reads the state and may fail. *)
Definition attempt {S A} (f : S -> Error + A) : M S A := fun s => (f s, s).

(** [if err := f(); err != nil { return fmt.Errorf(msg + ": %w", err) }] *)
Definition wrapping {S A} (msg : string) (m : M S A) : M S A := fun s =>
  match m s with
  | (inl err, s') => (inl (Wrap msg err), s')
  | (inr a, s') => (inr a, s')
  end.

(** [for _, x := range l { if err := f(x); err != nil { return err } }] *)
Fixpoint forEach {S X} (f : X -> M S unit) (l : list X) : M S unit :=
  match l with
  | [] => ret tt
  | x :: l' => f x ;; forEach f l'
  end.

(** ** [componentarchive]: the builder options *)

Module componentarchive_builder.
Record BuilderOptions : Type := {
  ComponentArchivePath : string
}.
End componentarchive_builder.

(** ** Package [resources]: [add] *)

Module resources.
Import cdv2.

(** [ResourceOptions]: a resource with an optional [input]. *)
Record ResourceOptions : Type := {
  Resource_ : Resource;
  Input : option input.BlobInput
}.

Record Options : Type := {
  BuilderOptions_ : componentarchive_builder.BuilderOptions;
  ResourceObjectPath : string
}.

(** The process-wide [os.Stdin]: the outcome of [Stat] (mode bit
    [ModeNamedPipe], size) and what can be read from it. *)
Record StdinInfo : Type := {
  ModeNamedPipe : bool;
  StdinSize : Z
}.

Record os_Stdin (Data : Type) : Type := {
  StdinStat : Error + StdinInfo;
  StdinReader : Data
}.
Arguments StdinStat {Data} _.
Arguments StdinReader {Data} _.

(** The collaborators of [add] that are not part of the command: the
    validation rule set, the serializer, the multi-document decoder (the
    documents of a reader in order, each decoded or refused with the
    message of the decoder's syntax error), the archive builder, the blob
    reader and the archive's [AddResource]. *)
Record Env (FS Data : Type) : Type := {
  ValidateResource : Resource -> list string;
  Validate : ComponentDescriptor -> option Error;
  Marshal : ComponentDescriptor -> Error + Data;
  NewYAMLOrJSONDecoder : Data -> list (string + ResourceOptions);
  Build : componentarchive_builder.BuilderOptions -> M FS ComponentDescriptor;
  InputRead : input.BlobInput -> FS -> string -> Error + input.BlobOutput;
  AddResource : Resource -> ctf.BlobInfo -> string ->
                M (ComponentDescriptor * FS) unit
}.
Arguments ValidateResource {FS Data} _.
Arguments Validate {FS Data} _.
Arguments Marshal {FS Data} _.
Arguments NewYAMLOrJSONDecoder {FS Data} _.
Arguments Build {FS Data} _.
Arguments InputRead {FS Data} _.
Arguments AddResource {FS Data} _.

Definition set_ResourceVersion (v : string) (r : ResourceOptions)
  : ResourceOptions :=
  {| Resource_ := set_Version v (Resource_ r); Input := Input r |}.

(** Lines 223-226: a local resource without a version takes the version
    of the component descriptor. *)
Definition defaultVersion (cd : ComponentDescriptor)
    (resource : ResourceOptions) : ResourceOptions :=
  if decide (Relation (Resource_ resource) = LocalRelation
             /\ Version (Resource_ resource) = EmptyString)
  then set_ResourceVersion (GetVersion cd) resource
  else resource.

(** Line 228: [resource.Input != nil && resource.Access != nil]. *)
Definition conflicting (resource : ResourceOptions) : bool :=
  match Input resource, Access (Resource_ resource) with
  | Some _, Some _ => true
  | _, _ => false
  end.

(** Every document before position [i] decodes and keeps [access] and
  [input] apart. *)
Definition sound_before (dec : list (string + ResourceOptions)) (i : nat) : Prop :=
forall j : nat, (j < i)%nat ->
  exists u, dec !! j = Some (inr u) /\ conflicting u = false.

(** The loop of [generateResourcesFromReader], one turn per [Decode]: at
    the end of the documents [Decode] returns [io.EOF] and the loop
    breaks; a document it refuses comes back as a syntax error, which is
    not [io.EOF]. *)
Fixpoint decodeLoop (cd : ComponentDescriptor)
    (yamldecoder : list (string + ResourceOptions))
    (resources : list ResourceOptions) : Error + list ResourceOptions :=
  match yamldecoder with
  | [] => inr resources
  | inl msg :: _ =>
      let err := ErrOther msg in
      if is_EOF err then inr resources
      else inl (Wrap "unable to decode resource" err)
  | inr resource :: rest =>
      let resource := defaultVersion cd resource in
      if conflicting resource then
        inl (Errorf ("the resources " +:+ fmt_q (Name (Resource_ resource))
             +:+ " input and access is defind. Only one option is allowed"))
      else decodeLoop cd rest (resources ++ [resource])
  end.

Section Add.
Context {FS Data : Type} `{!FileSystem FS Data}.
Variable env : Env FS Data.

(** [generateResourcesFromReader] *)
Definition generateResourcesFromReader (cd : ComponentDescriptor)
    (reader : Data) : Error + list ResourceOptions :=
  decodeLoop cd (NewYAMLOrJSONDecoder env reader) [].

(** The first half of [generateResources]: the documents of the file
    named by [ResourceObjectPath], if one is given. *)
Definition resourcesFromPath (o : Options) (cd : ComponentDescriptor)
  : M FS (list ResourceOptions) :=
  if decide (ResourceObjectPath o ≠ EmptyString) then
    resourceObjectReader ←
      wrapping ("unable to read resource object from " +:+ ResourceObjectPath o)
        (attempt (fun fs : FS => Open fs (ResourceObjectPath o)));
    wrapping ("unable to read resources from " +:+ ResourceObjectPath o)
      (attempt (fun _ : FS => generateResourcesFromReader cd resourceObjectReader))
  else ret [].

(** [generateResources] *)
Definition generateResources (o : Options) (stdin : os_Stdin Data)
    (cd : ComponentDescriptor) : M FS (list ResourceOptions) :=
  resources ← resourcesFromPath o cd;
  stdinInfo ← wrapping "unable to read from stdin"
                (attempt (fun _ : FS => StdinStat stdin));
  if ModeNamedPipe stdinInfo || negb (StdinSize stdinInfo =? 0) then
    stdinResources ←
      wrapping "unable to read from stdin"
        (attempt (fun _ : FS => generateResourcesFromReader cd (StdinReader stdin)));
    ret (resources ++ stdinResources)
  else ret resources.

(** [addInputBlob] *)
Definition addInputBlob (o : Options) (resource : ResourceOptions)
    (inp : input.BlobInput) : M (ComponentDescriptor * FS) unit :=
  blob ← attempt (fun st => InputRead env inp st.2 (ResourceObjectPath o));
  wrapping "unable to add input blob to archive"
    (AddResource env (Resource_ resource)
       {| ctf.MediaType := Type_ (Resource_ resource);
          ctf.Digest := input.BlobDigest blob;
          ctf.Size := input.BlobSize blob |}
       (input.BlobReader blob));;
  match input.BlobClose blob with
  | Some err => throw (Wrap "unable to close input file" err)
  | None => ret tt
  end.

(** [archive.ComponentDescriptor.Resources[id]]: a panic out of range. *)
Definition index (rs : list Resource) (id : Z) : M (ComponentDescriptor * FS) Resource :=
  match rs !! Z.to_nat id with
  | Some r => ret r
  | None => throw (Panic "index out of range")
  end.

(** [if errList := ValidateResource(..); len(errList) != 0 { return errList.ToAggregate() }] *)
Definition checkResource (r : Resource) : M (ComponentDescriptor * FS) unit :=
  match ValidateResource env r with
  | [] => ret tt
  | errList => throw (Aggregate errList)
  end.

Definition putResources (rs : list Resource) : M (ComponentDescriptor * FS) unit :=
  fun st => (inr tt, (set_Resources rs st.1, st.2)).

(** The branch of the loop for a resource without [input]: lines 135-147. *)
Definition upsert (resource : Resource) : M (ComponentDescriptor * FS) unit :=
  st ← get;
  let cd := st.1 in
  let id := GetResourceIndex cd resource in
  if decide (id ≠ -1) then
    cur ← index (Resources cd) id;
    let mergedRes := cdutils.MergeResources cur resource in
    checkResource mergedRes;;
    putResources (<[Z.to_nat id := mergedRes]> (Resources cd))
  else
    checkResource resource;;
    putResources (Resources cd ++ [resource]).

(** Validate and serialize the descriptor: lines 150-157. *)
Definition encode : M (ComponentDescriptor * FS) Data :=
  st ← get;
  match Validate env st.1 with
  | Some err => throw (Wrap "invalid resource" err)
  | None => ret tt
  end;;
  wrapping "unable to encode component descriptor"
    (attempt (fun _ => Marshal env st.1)).

(** Write the serialized descriptor: lines 158-160. *)
Definition write (compDescFilePath : string) (data : Data)
  : M (ComponentDescriptor * FS) unit :=
  wrapping "unable to write modified comonent descriptor"
    (fun st => let '(err, fs') := WriteFile st.2 compDescFilePath data 436 in
               (match err with Some e => inl e | None => inr tt end,
                (st.1, fs'))).

Definition persist (compDescFilePath : string) : M (ComponentDescriptor * FS) unit :=
  data ← encode;
  write compDescFilePath data.

(** The body of the loop of [Run]. *)
Definition addResource (o : Options) (compDescFilePath : string)
    (resource : ResourceOptions) : M (ComponentDescriptor * FS) unit :=
  match Input resource with
  | Some inp => addInputBlob o resource inp
  | None => upsert (Resource_ resource)
  end;;
  persist compDescFilePath.

Definition compDescFilePath (o : Options) : string :=
  filepath_Join
    (componentarchive_builder.ComponentArchivePath (BuilderOptions_ o))
    ctf.ComponentDescriptorFileName.

(** The loop of [Run] over the generated resources, from an archive and
    a file system. *)
Definition runLoop (o : Options) (resources : list ResourceOptions)
  : M (ComponentDescriptor * FS) unit :=
  forEach (addResource o (compDescFilePath o)) resources.

(** [Options.Run] *)
Definition Run (o : Options) (stdin : os_Stdin Data) : M FS unit :=
  archive ← Build env (BuilderOptions_ o);
  resources ← generateResources o stdin archive;
  fun fs => let '(r, st) := runLoop o resources (archive, fs) in (r, st.2).

End Add.
End resources.

(** ** Package [componentarchive]: [init] *)

Module componentarchive.
Import cdv2.

Record InitOptions : Type := {
  ComponentArchivePath : string;
  ComponentName : string;
  ComponentVersion : string;
  OCIRegistryURLs : list string
}.

(** [os.ModeDir] *)
Definition os_ModeDir : FileMode := 2147483648.

(** The descriptor literal of [Run], before the registry contexts. *)
Definition baseDescriptor (o : InitOptions) : ComponentDescriptor :=
  {| MetadataVersion := "v2";
     CDName := ComponentName o;
     CDVersion := ComponentVersion o;
     Provider := InternalProvider;
     RepositoryContexts := [];
     Sources := [];
     ComponentReferences := [];
     Resources := [] |}.

(** [for _, url := range o.OCIRegistryURLs { cd.RepositoryContexts = AddRepositoryContext(..) }] *)
Definition addRegistryContexts (urls : list string) (cd : ComponentDescriptor)
  : ComponentDescriptor :=
  fold_left
    (fun cd url =>
       set_RepositoryContexts
         (utils.AddRepositoryContext (RepositoryContexts cd) OCIRegistryType url) cd)
    urls cd.

Definition compDescFilePath (o : InitOptions) : string :=
  filepath_Join (ComponentArchivePath o) ctf.ComponentDescriptorFileName.

Section Init.
Context {FS Data : Type} `{!FileSystem FS Data}.
(** The validation rule set and the serializer. *)
Variable Validate : ComponentDescriptor -> option Error.
Variable Marshal : ComponentDescriptor -> Error + Data.

(** The directory check at the head of [Run]: lines 64-73. *)
Definition ensureDirectory (o : InitOptions) : M FS unit := fun fs =>
  match Stat fs (ComponentArchivePath o) with
  | inl err =>
      if os_IsNotExist err then
        match MkdirAll fs (ComponentArchivePath o) os_ModeDir with
        | (Some _, fs') =>
            (inl (Errorf ("unable to mkdir " +:+ fmt_q (ComponentArchivePath o))), fs')
        | (None, fs') => (inr tt, fs')
        end
      else
        (inl (Wrap ("unable to read " +:+ fmt_q (ComponentArchivePath o)) err), fs)
  | inr fileinfo =>
      if negb (IsDir fileinfo) then
        (inl (Errorf (fmt_q (ComponentArchivePath o) +:+ " is not a directory")), fs)
      else (inr tt, fs)
  end.

(** [InitOptions.Run] *)
Definition Run (o : InitOptions) : M FS unit :=
  ensureDirectory o;;
  let cd := addRegistryContexts (OCIRegistryURLs o) (baseDescriptor o) in
  cd ← wrapping "unable to set component descriptor defaults"
         (attempt (fun _ : FS => DefaultComponent cd));
  match Validate cd with
  | Some err => throw (Wrap "invalid resource" err)
  | None => ret tt
  end;;
  data ← wrapping "unable to encode component descriptor"
           (attempt (fun _ : FS => Marshal cd));
  wrapping "unable to write comonent descriptor"
    (fun fs => let '(err, fs') := WriteFile fs (compDescFilePath o) data 420 in
               (match err with Some e => inl e | None => inr tt end, fs')).

End Init.

(** The repository context that [Run] adds for a registry URL. *)
Definition ociContext (url : string) : RepositoryContext :=
  {| RCType := OCIRegistryType; BaseURL := url |}.

(** *** [Complete], [validate] and the command *)

Definition set_ComponentArchivePath (path : string) (o : InitOptions)
  : InitOptions :=
  {| ComponentArchivePath := path;
     ComponentName := ComponentName o;
     ComponentVersion := ComponentVersion o;
     OCIRegistryURLs := OCIRegistryURLs o |}.

Section InitCommand.
Context {FS Data : Type} `{!FileSystem FS Data}.
(** The error of [semver.NewVersion], if any. *)
Variable semver_NewVersion : string -> option Error.
Variable Validate : ComponentDescriptor -> option Error.
Variable Marshal : ComponentDescriptor -> Error + Data.

(** [InitOptions.validate] *)
Definition validate (o : InitOptions) : option Error :=
  if decide (String.length (ComponentName o) = 0%nat) then
    Some (Errorf "component name must not be empty")
  else
    match semver_NewVersion (ComponentVersion o) with
    | Some _ => Some (Errorf "component version must be a valid SemVer")
    | None =>
        if decide (length (OCIRegistryURLs o) = 0%nat) then
          Some (Errorf "at least one oci registry must be provided")
        else None
    end.

(** [InitOptions.Complete]: the options are the state. *)
Definition Complete (args : list string) : M InitOptions unit := fun o =>
  if decide (length args ≠ 1%nat) then
    (inl (Errorf "expected exactly one argument that contains the path to the component archive"), o)
  else
    match args !! 0%nat with
    | None => (inl (Panic "index out of range"), o)
    | Some arg =>
        let o := set_ComponentArchivePath arg o in
        (match validate o with Some err => inl err | None => inr tt end, o)
    end.

(** The [Run] function of the command that [NewInitCommand] builds: an
    error is printed and the process exits with status 1, which is the
    error returned here; otherwise the command returns. *)
Definition NewInitCommand_Run (args : list string)
  : M (InitOptions * FS) unit := fun st =>
  match Complete args st.1 with
  | (inl err, o) => (inl err, (o, st.2))
  | (inr _, o) =>
      match Run Validate Marshal o st.2 with
      | (inl err, fs) => (inl err, (o, fs))
      | (inr _, fs) => (inr tt, (o, fs))
      end
  end.

End InitCommand.
End componentarchive.

(** ** An in-memory file system

    A [FileSystem] in the manner of the [memoryfs] the tests run on, for
    running the commands on concrete inputs: a flat map from path strings
    to nodes, with a journal of the calls that change it.  A path is an
    opaque key: parent directories are neither consulted nor created, so
    it stands for the real one only on paths whose parents exist as
    directories. *)

Module memoryfs.

Inductive Node (Data : Type) : Type :=
  | Dir
  | File (content : Data).
Arguments Dir {Data}.
Arguments File {Data} _.

Inductive Call (Data : Type) : Type :=
  | CallMkdirAll (path : string)
  | CallWriteFile (path : string) (data : Data)
  | CallRename (oldname newname : string).
Arguments CallMkdirAll {Data} _.
Arguments CallWriteFile {Data} _ _.
Arguments CallRename {Data} _ _.

Record t (Data : Type) : Type := {
  nodes : gmap string (Node Data);
  journal : list (Call Data)
}.
Arguments nodes {Data} _.
Arguments journal {Data} _.

Section Ops.
Context {Data : Type}.

(** The root directory exists from the start. *)
Definition New : t Data :=
  {| nodes := {[ EmptyString := Dir ]}; journal := [] |}.

Definition stat (fs : t Data) (path : string) : Error + FileInfo :=
  match nodes fs !! path with
  | None => inl (ErrNotExist path)
  | Some Dir => inr {| IsDir := true |}
  | Some (File _) => inr {| IsDir := false |}
  end.

Definition mkdirAll (fs : t Data) (path : string) (perm : FileMode)
  : option Error * t Data :=
  match nodes fs !! path with
  | Some (File _) => (Some (ErrOther "not a directory"), fs)
  | _ => (None, {| nodes := <[path := Dir]> (nodes fs);
                   journal := journal fs ++ [CallMkdirAll path] |})
  end.

Definition open (fs : t Data) (path : string) : Error + Data :=
  match nodes fs !! path with
  | None => inl (ErrNotExist path)
  | Some Dir => inl (ErrOther "is a directory")
  | Some (File content) => inr content
  end.

Definition writeFile (fs : t Data) (path : string) (data : Data)
    (perm : FileMode) : option Error * t Data :=
  match nodes fs !! path with
  | Some Dir => (Some (ErrOther "is a directory"), fs)
  | _ => (None, {| nodes := <[path := File data]> (nodes fs);
                   journal := journal fs ++ [CallWriteFile path data] |})
  end.

Definition rename (fs : t Data) (oldname newname : string)
  : option Error * t Data :=
  match nodes fs !! oldname with
  | None => (Some (ErrNotExist oldname), fs)
  | Some n => (None, {| nodes := <[newname := n]> (delete oldname (nodes fs));
                        journal := journal fs ++ [CallRename oldname newname] |})
  end.

#[global] Instance memoryfs_FileSystem : FileSystem (t Data) Data := {
  Stat := stat;
  MkdirAll := mkdirAll;
  Open := open;
  WriteFile := writeFile;
  Rename := rename
}.
End Ops.
End memoryfs.

(** ** A test bench

    Stand-ins for the collaborators, on the in-memory file system: a file
    holds either a serialized descriptor or the documents of a template. *)

Module testbench.
Import cdv2 resources.

Inductive Data : Type :=
  | DescriptorFile (cd : ComponentDescriptor)
  | TemplateFile (docs : list (string + ResourceOptions)).

Definition required (field value : string) : list string :=
  if decide (value = EmptyString) then [field +:+ ": Required value"] else [].

Definition validateResource (r : Resource) : list string :=
  required "name" (Name r) ++ required "version" (Version r)
    ++ required "type" (Type_ r).

Definition validate (cd : ComponentDescriptor) : option Error :=
  match required "component.name" (CDName cd)
        ++ concat (validateResource <$> Resources cd) with
  | [] => None
  | errs => Some (Aggregate errs)
  end.

Definition marshal (cd : ComponentDescriptor) : Error + Data :=
  inr (DescriptorFile cd).

Definition decoder (reader : Data) : list (string + ResourceOptions) :=
  match reader with
  | TemplateFile docs => docs
  | DescriptorFile _ => [inl "cannot unmarshal into a resource"]
  end.

Definition build (bo : componentarchive_builder.BuilderOptions)
  : M (memoryfs.t Data) ComponentDescriptor :=
  attempt (fun fs =>
    match Open fs (filepath_Join
                     (componentarchive_builder.ComponentArchivePath bo)
                     ctf.ComponentDescriptorFileName) with
    | inr (DescriptorFile cd) => inr cd
    | inr (TemplateFile _) => inl (ErrOther "unable to parse component descriptor")
    | inl err => inl err
    end).

Definition inputRead (inp : input.BlobInput) (fs : memoryfs.t Data)
    (templatePath : string) : Error + input.BlobOutput :=
  match Open fs (input.Path inp) with
  | inr _ => inr {| input.BlobDigest := "sha256:" +:+ input.Path inp;
                    input.BlobSize := 0;
                    input.BlobReader := input.Path inp;
                    input.BlobClose := None |}
  | inl err => inl err
  end.

Definition addBlobResource (res : Resource) (info : ctf.BlobInfo)
    (reader : string) : M (ComponentDescriptor * memoryfs.t Data) unit :=
  fun st =>
    let res' := {| Name := Name res; Version := Version res;
                   Type_ := Type_ res; ExtraIdentity := ExtraIdentity res;
                   Labels := Labels res; Relation := Relation res;
                   Access := Some {| ObjectType := "localFilesystemBlob";
                                     Raw := ctf.Digest info |} |} in
    let id := GetResourceIndex st.1 res in
    let rs := if decide (id ≠ -1) then <[Z.to_nat id := res']> (Resources st.1)
              else Resources st.1 ++ [res'] in
    (inr tt, (set_Resources rs st.1, st.2)).

Definition env : Env (memoryfs.t Data) Data :=
  {| ValidateResource := validateResource;
     Validate := validate;
     Marshal := marshal;
     NewYAMLOrJSONDecoder := decoder;
     Build := build;
     InputRead := inputRead;
     AddResource := addBlobResource |}.

(** An archive at [arch] with an empty descriptor of version 1.0.0. *)
Definition emptyDescriptor : ComponentDescriptor :=
  {| MetadataVersion := "v2"; CDName := "example.com/component";
     CDVersion := "1.0.0"; Provider := InternalProvider;
     RepositoryContexts := [{| RCType := OCIRegistryType; BaseURL := "my.oci.registry" |}];
     Sources := []; ComponentReferences := []; Resources := [] |}.

Definition mkResource (name version type relation : string)
    (access : option UnstructuredTypedObject) : Resource :=
  {| Name := name; Version := version; Type_ := type; ExtraIdentity := ∅;
     Labels := []; Relation := relation; Access := access |}.

Definition imageAccess : UnstructuredTypedObject :=
  {| ObjectType := "ociRegistry"; Raw := "example.registry/img:0.2.0" |}.

(** The example of the help text: an external image with an access. *)
Definition myimage : ResourceOptions :=
  {| Resource_ := mkResource "myimage" "0.2.0" "ociImage" ExternalRelation
                    (Some imageAccess);
     Input := None |}.

(** A descriptor that already lists the image. *)
Definition withImage : ComponentDescriptor :=
  set_Resources [Resource_ myimage] emptyDescriptor.

Definition mirrorAccess : UnstructuredTypedObject :=
  {| ObjectType := "ociRegistry"; Raw := "mirror.registry/img:0.2.0" |}.

(** A partial template for the image: only the access is populated. *)
Definition newAccess : Resource :=
  mkResource "myimage" "0.2.0" "ociImage" EmptyString (Some mirrorAccess).

Definition fileInput : input.BlobInput :=
  {| input.InputType := "file"; input.Path := "some/path";
     input.CompressWithGzip := false; input.ExcludeFiles := EmptyString |}.

(** A document that sets both [access] and [input]. *)
Definition both : ResourceOptions :=
  {| Resource_ := mkResource "myconfig" "1.0.0" "json" ExternalRelation
                    (Some imageAccess);
     Input := Some fileInput |}.

(** A local resource without a version and without an input. *)
Definition localNoVersion : ResourceOptions :=
  {| Resource_ := mkResource "mylocal" EmptyString "json" LocalRelation
                    (Some imageAccess);
     Input := None |}.

(** A resource that the validation refuses: it has no type. *)
Definition untyped : ResourceOptions :=
  {| Resource_ := mkResource "broken" "0.1.0" EmptyString ExternalRelation
                    (Some imageAccess);
     Input := None |}.

Definition withFiles (files : list (string * Data)) : memoryfs.t Data :=
  {| memoryfs.nodes :=
       list_to_map ((EmptyString, memoryfs.Dir) :: ("arch", memoryfs.Dir)
                    :: (prod_map id memoryfs.File <$> files));
     memoryfs.journal := [] |}.

Definition archiveWith (cd : ComponentDescriptor)
    (docs : list (string + ResourceOptions)) : memoryfs.t Data :=
  withFiles [("arch/component-descriptor.yaml", DescriptorFile cd);
             ("resources.yaml", TemplateFile docs)].

Definition opts : Options :=
  {| BuilderOptions_ := {| componentarchive_builder.ComponentArchivePath := "arch" |};
     ResourceObjectPath := "resources.yaml" |}.

(** No piped input: a terminal, nothing to read. *)
Definition noStdin : os_Stdin Data :=
  {| StdinStat := inr {| ModeNamedPipe := false; StdinSize := 0 |};
     StdinReader := TemplateFile [] |}.

Definition pipedStdin (docs : list (string + ResourceOptions)) : os_Stdin Data :=
  {| StdinStat := inr {| ModeNamedPipe := true; StdinSize := 0 |};
     StdinReader := TemplateFile docs |}.

Definition initOpts : componentarchive.InitOptions :=
  {| componentarchive.ComponentArchivePath := "arch";
     componentarchive.ComponentName := "component-name";
     componentarchive.ComponentVersion := "1.0.0";
     componentarchive.OCIRegistryURLs := ["my.oci.registry"] |}.

Definition descriptorPath : string := "arch/component-descriptor.yaml".

(** The descriptor that [init] builds from [initOpts]. *)
Definition freshDescriptor : ComponentDescriptor :=
  {| MetadataVersion := "v2"; CDName := "component-name";
     CDVersion := "1.0.0"; Provider := InternalProvider;
     RepositoryContexts := [{| RCType := OCIRegistryType; BaseURL := "my.oci.registry" |}];
     Sources := []; ComponentReferences := []; Resources := [] |}.

(** A stand-in for [semver.NewVersion]: a version starts with a digit. *)
Definition newVersion (v : string) : option Error :=
  match v with
  | String c _ =>
      if decide (48 <= Z.of_nat (Ascii.nat_of_ascii c) <= 57) then None
      else Some (ErrOther "Invalid Semantic Version")
  | EmptyString => Some (ErrOther "Invalid Semantic Version")
  end.

(** The options as the flags leave them, before [Complete]. *)
Definition flagOpts : componentarchive.InitOptions :=
  {| componentarchive.ComponentArchivePath := EmptyString;
     componentarchive.ComponentName := "component-name";
     componentarchive.ComponentVersion := "1.0.0";
     componentarchive.OCIRegistryURLs := ["my.oci.registry"] |}.

(** A resource with an input, and an archive that holds the input file. *)
Definition myconfig : ResourceOptions :=
  {| Resource_ := mkResource "myconfig" "1.0.0" "json" LocalRelation None;
     Input := Some fileInput |}.

Definition archiveWithInput (cd : ComponentDescriptor) : memoryfs.t Data :=
  withFiles [("arch/component-descriptor.yaml", DescriptorFile cd);
             ("some/path", TemplateFile [])].

(** An environment whose blob reader hands out a reader that fails to close. *)
Definition envBadClose : Env (memoryfs.t Data) Data :=
  {| ValidateResource := validateResource;
     Validate := validate;
     Marshal := marshal;
     NewYAMLOrJSONDecoder := decoder;
     Build := build;
     InputRead := fun inp fs p =>
       match inputRead inp fs p with
       | inr blob => inr {| input.BlobDigest := input.BlobDigest blob;
                            input.BlobSize := input.BlobSize blob;
                            input.BlobReader := input.BlobReader blob;
                            input.BlobClose := Some (ErrOther "file already closed") |}
       | inl err => inl err
       end;
     AddResource := addBlobResource |}.

(** An environment whose archive refuses every blob. *)
Definition envNoBlobs : Env (memoryfs.t Data) Data :=
  {| ValidateResource := validateResource;
     Validate := validate;
     Marshal := marshal;
     NewYAMLOrJSONDecoder := decoder;
     Build := build;
     InputRead := inputRead;
     AddResource := fun _ _ _ st => (inl (ErrOther "unable to write blob"), st) |}.

(** A standard input whose [Stat] fails. *)
Definition closedStdin : os_Stdin Data :=
  {| StdinStat := inl (ErrOther "bad file descriptor");
     StdinReader := TemplateFile [] |}.

Definition optsNoFile : Options :=
  {| BuilderOptions_ := {| componentarchive_builder.ComponentArchivePath := "arch" |};
     ResourceObjectPath := EmptyString |}.

Definition optsMissingFile : Options :=
  {| BuilderOptions_ := {| componentarchive_builder.ComponentArchivePath := "arch" |};
     ResourceObjectPath := "missing.yaml" |}.

(** [init] options for a path that does not exist yet, and for one that is
    a regular file. *)
Definition initNew : componentarchive.InitOptions :=
  {| componentarchive.ComponentArchivePath := "new";
     componentarchive.ComponentName := "component-name";
     componentarchive.ComponentVersion := "1.0.0";
     componentarchive.OCIRegistryURLs := ["my.oci.registry"; "my.oci.registry"] |}.

Definition initOnFile : componentarchive.InitOptions :=
  {| componentarchive.ComponentArchivePath := "resources.yaml";
     componentarchive.ComponentName := "component-name";
     componentarchive.ComponentVersion := "1.0.0";
     componentarchive.OCIRegistryURLs := ["my.oci.registry"] |}.

(** A validation that refuses every descriptor. *)
Definition refuseAll (cd : ComponentDescriptor) : option Error :=
  Some (ErrOther "component.name: Invalid value").

End testbench.

(** ** Readings of the specification

    What the specification promises beyond what the commands do, stated over
    the embedding so that it can be confronted with it. *)

(** A malformed document is reported with its ordinal: some reading of the
    error of [generateResourcesFromReader] gives, for every stream whose
    first refused document is at position [i], that position. *)
Definition error_carries_ordinal {FS Data : Type} `{!FileSystem FS Data}
    (env : resources.Env FS Data) (ordinal : Error -> nat) : Prop :=
  forall (cd : cdv2.ComponentDescriptor) (reader : Data) (i : nat)
         (msg : string) (err : Error),
    resources.NewYAMLOrJSONDecoder env reader !! i = Some (inl msg) ->
    resources.sound_before (resources.NewYAMLOrJSONDecoder env reader) i ->
    resources.generateResourcesFromReader env cd reader = inl err ->
    ordinal err = i.

(** The descriptor at [path] is replaced through a temporary file: the
    journal holds a write to another path followed by the rename of that
    path onto [path]. *)
Definition persisted_via_rename {Data : Type}
    (journal : list (memoryfs.Call Data)) (path : string) : Prop :=
  exists (tmp : string) (data : Data) (before after : list (memoryfs.Call Data)),
    tmp ≠ path
    /\ journal = before ++ [memoryfs.CallWriteFile tmp data;
                            memoryfs.CallRename tmp path] ++ after.

(** * Properties *)

Import cdv2 resources.

(** ** The multi-document decoder *)

Section Decoder.
Variable cd : ComponentDescriptor.

Lemma conflicting_defaultVersion (t : ResourceOptions) :
  conflicting (defaultVersion cd t) = conflicting t.
Proof. unfold defaultVersion. by case_decide. Qed.

Lemma Version_defaultVersion_local (t : ResourceOptions) :
  Relation (Resource_ t) = LocalRelation ->
  Version (Resource_ t) = EmptyString ->
  defaultVersion cd t = set_ResourceVersion (GetVersion cd) t.
Proof. intros Hrel Hver. unfold defaultVersion. case_decide; [done | tauto]. Qed.

(** Documents that decode and keep [access] and [input] apart are taken
    over one by one, in order. *)
Lemma decodeLoop_app (ts : list ResourceOptions)
    (rest : list (string + ResourceOptions)) (acc : list ResourceOptions) :
  Forall (fun t => conflicting t = false) ts ->
  decodeLoop cd ((inr <$> ts) ++ rest) acc
  = decodeLoop cd rest (acc ++ (defaultVersion cd <$> ts)).
Proof.
  intros Hts. revert acc.
  induction Hts as [| t ts Ht _ IH]; intros acc; simpl.
  - by rewrite app_nil_r.
  - rewrite conflicting_defaultVersion, Ht, IH.
    by rewrite <- app_assoc.
Qed.

Lemma decodeLoop_all (ts : list ResourceOptions) (acc : list ResourceOptions) :
  Forall (fun t => conflicting t = false) ts ->
  decodeLoop cd (inr <$> ts) acc = inr (acc ++ (defaultVersion cd <$> ts)).
Proof.
  intros Hts.
  rewrite <- (app_nil_r (inr <$> ts)).
  by rewrite decodeLoop_app.
Qed.

(** A successful decoding saw only documents that decode and that keep
    [access] and [input] apart. *)
Lemma decodeLoop_inr (dec : list (string + ResourceOptions))
    (acc rs : list ResourceOptions) :
  decodeLoop cd dec acc = inr rs ->
  exists ts, dec = inr <$> ts
             /\ Forall (fun t => conflicting t = false) ts
             /\ rs = acc ++ (defaultVersion cd <$> ts).
Proof.
  revert acc. induction dec as [| [msg | t] dec IH]; intros acc; simpl.
  - intros [= <-]. exists []. by rewrite app_nil_r.
  - discriminate.
  - rewrite conflicting_defaultVersion.
    destruct (conflicting t) eqn:Hc; [discriminate |].
    intros (ts & -> & Hts & ->)%IH.
    exists (t :: ts). split_and!; [done | by constructor |].
    by rewrite <- app_assoc.
Qed.

(** The first document that both decodes and sets [access] and [input]
    stops the loop with the error that names the resource. *)
Lemma decodeLoop_conflict (ts : list ResourceOptions) (t : ResourceOptions)
    (rest : list (string + ResourceOptions)) (acc : list ResourceOptions) :
  Forall (fun t => conflicting t = false) ts ->
  conflicting t = true ->
  decodeLoop cd ((inr <$> ts) ++ inr t :: rest) acc
  = inl (Errorf ("the resources " +:+ fmt_q (Name (Resource_ t))
          +:+ " input and access is defind. Only one option is allowed")).
Proof.
  intros Hts Ht. rewrite decodeLoop_app by done. simpl.
  rewrite conflicting_defaultVersion, Ht.
  unfold defaultVersion. by case_decide.
Qed.

Lemma decodeLoop_malformed (ts : list ResourceOptions) (msg : string)
    (rest : list (string + ResourceOptions)) (acc : list ResourceOptions) :
  Forall (fun t => conflicting t = false) ts ->
  decodeLoop cd ((inr <$> ts) ++ inl msg :: rest) acc
  = inl (Wrap "unable to decode resource" (ErrOther msg)).
Proof. intros Hts. by rewrite decodeLoop_app. Qed.

End Decoder.

(** ** The merge step *)

Lemma GetIdentity_MergeResources (a b : Resource) :
  GetIdentity (cdutils.MergeResources a b) = GetIdentity b.
Proof. reflexivity. Qed.

(** Merging an entry over the outcome of its own merge changes nothing. *)
Lemma MergeResources_again (a b : Resource) :
  cdutils.MergeResources (cdutils.MergeResources a b) b = cdutils.MergeResources a b.
Proof.
  unfold cdutils.MergeResources; simpl. f_equal.
  - by destruct (Labels b).
  - by case_decide.
  - by destruct (Access b).
Qed.

Lemma MergeResources_self (b : Resource) : cdutils.MergeResources b b = b.
Proof.
  destruct b as [n v t x l r a]. unfold cdutils.MergeResources; simpl. f_equal.
  - by destruct l.
  - by case_decide.
  - by destruct a.
Qed.

Lemma set_Resources_same (cd : ComponentDescriptor) :
  set_Resources (Resources cd) cd = cd.
Proof. by destruct cd. Qed.

Lemma set_Resources_twice (rs rs' : list Resource) (cd : ComponentDescriptor) :
  set_Resources rs' (set_Resources rs cd) = set_Resources rs' cd.
Proof. reflexivity. Qed.

(** In a collection without two entries of one identity, an entry of the
    wanted identity is the first of that identity. *)
Lemma NoDup_identity_first (rs : list Resource) (r e : Resource) (i : nat) :
  NoDup (GetIdentity <$> rs) ->
  rs !! i = Some e -> sameIdentity e r ->
  list_find (fun cur => sameIdentity cur r) rs = Some (i, e).
Proof.
  intros Hnd Hi He. apply list_find_Some. split_and!; [done.. |].
  intros j y Hj Hlt Hy.
  assert (i = j) as ->; [| lia].
  eapply NoDup_lookup; [exact Hnd | |].
  - by rewrite list_lookup_fmap, Hi.
  - rewrite list_lookup_fmap, Hj. simpl. f_equal.
    unfold sameIdentity in *. congruence.
Qed.

Section Merge.
Context {FS Data : Type} `{!FileSystem FS Data}.
Variable env : Env FS Data.

(** What the merge branch of the loop does, by the outcome of the scan. *)
Lemma upsert_eq (r : Resource) (cd : ComponentDescriptor) (fs : FS) :
  upsert env r (cd, fs) =
  match list_find (fun cur => sameIdentity cur r) (Resources cd) with
  | Some (i, e) =>
      match ValidateResource env (cdutils.MergeResources e r) with
      | [] => (inr tt, (set_Resources
                          (<[i := cdutils.MergeResources e r]> (Resources cd)) cd, fs))
      | errs => (inl (Aggregate errs), (cd, fs))
      end
  | None =>
      match ValidateResource env r with
      | [] => (inr tt, (set_Resources (Resources cd ++ [r]) cd, fs))
      | errs => (inl (Aggregate errs), (cd, fs))
      end
  end.
Proof.
  unfold upsert, GetResourceIndex, bind, get, index, checkResource,
    putResources, ret, throw; simpl.
  destruct (list_find _ _) as [[i e] |] eqn:Hfind.
  - apply list_find_Some in Hfind as (Hi & _ & _).
    case_decide; [| lia].
    rewrite Nat2Z.id, Hi; simpl.
    by destruct (ValidateResource env _).
  - case_decide; [lia |].
    by destruct (ValidateResource env r).
Qed.

(** The descriptor keeps its version through the merge step. *)
Lemma upsert_GetVersion (r : Resource) (st : ComponentDescriptor * FS) :
  GetVersion (upsert env r st).2.1 = GetVersion st.1.
Proof.
  destruct st as [cd fs]. rewrite upsert_eq.
  destruct (list_find _ _) as [[i e] |];
    by destruct (ValidateResource env _).
Qed.

(** The merge step keeps the identities of a collection pairwise distinct,
    whether the validation accepts the entry or not. *)
Lemma upsert_NoDup (r : Resource) (st : ComponentDescriptor * FS) :
  NoDup (GetIdentity <$> Resources st.1) ->
  NoDup (GetIdentity <$> Resources (upsert env r st).2.1).
Proof.
  destruct st as [cd fs]; simpl. intros Hnd. rewrite upsert_eq.
  destruct (list_find _ _) as [[i e] |] eqn:Hfind.
  - apply list_find_Some in Hfind as (Hi & He & _).
    destruct (ValidateResource env _); [| done]. simpl.
    rewrite list_fmap_insert, GetIdentity_MergeResources.
    rewrite list_insert_id; [done |].
    rewrite list_lookup_fmap, Hi. simpl. by f_equal.
  - apply list_find_None in Hfind.
    destruct (ValidateResource env r); [| done]. simpl.
    rewrite fmap_app. apply NoDup_app. split_and!; [done | | apply NoDup_singleton].
    intros x Hx ->%list_elem_of_singleton.
    apply list_elem_of_fmap in Hx as (y & Hy & Hin).
    rewrite Forall_forall in Hfind. by apply (Hfind y Hin).
Qed.

(** Validation, serialization and the write leave the descriptor that is
    held in memory as it is. *)
Lemma persist_descriptor (path : string) (st : ComponentDescriptor * FS) :
  (persist env path st).2.1 = st.1.
Proof.
  destruct st as [cd fs].
  unfold persist, encode, write, bind, get, wrapping, attempt, throw, ret; simpl.
  destruct (Validate env cd); [done |]. simpl.
  destruct (Marshal env cd); [done |]. simpl.
  by destruct (WriteFile fs path d 436) as [[e |] fs'].
Qed.

Lemma addResource_merge (o : Options) (path : string) (t : ResourceOptions)
    (st : ComponentDescriptor * FS) :
  Input t = None ->
  addResource env o path t st =
  match upsert env (Resource_ t) st with
  | (inl err, st') => (inl err, st')
  | (inr _, st') => persist env path st'
  end.
Proof. intros Hin. unfold addResource, bind. by rewrite Hin. Qed.

Lemma addResource_NoDup (o : Options) (path : string) (t : ResourceOptions)
    (st : ComponentDescriptor * FS) :
  Input t = None ->
  NoDup (GetIdentity <$> Resources st.1) ->
  NoDup (GetIdentity <$> Resources (addResource env o path t st).2.1).
Proof.
  intros Hin Hnd. rewrite addResource_merge by done.
  pose proof (upsert_NoDup (Resource_ t) st Hnd) as Hup.
  destruct (upsert env (Resource_ t) st) as [[err | u] st']; [done |].
  by rewrite persist_descriptor.
Qed.

End Merge.

Section MergeTwice.
Context {FS Data : Type} `{!FileSystem FS Data}.
Variable env : Env FS Data.

(** Once an entry has gone in, the same entry goes in again without a
    change, on whatever file system. *)
Lemma upsert_again (r : Resource) (st st1 : ComponentDescriptor * FS) (fs' : FS) :
  upsert env r st = (inr tt, st1) ->
  upsert env r (st1.1, fs') = (inr tt, (st1.1, fs')).
Proof.
  destruct st as [cd fs]. rewrite upsert_eq.
  destruct (list_find _ _) as [[i e] |] eqn:Hfind.
  - destruct (ValidateResource env _) eqn:Hv; [| discriminate].
    intros [= <-]; simpl.
    apply list_find_Some in Hfind as (Hi & He & Hfirst).
    pose proof (lookup_lt_Some _ _ _ Hi) as Hlt.
    rewrite upsert_eq; simpl.
    assert (list_find (fun cur => sameIdentity cur r)
              (<[i := cdutils.MergeResources e r]> (Resources cd))
            = Some (i, cdutils.MergeResources e r)) as ->.
    { apply list_find_Some. split_and!.
      - by apply list_lookup_insert_eq.
      - done.
      - intros j y Hj Hji. rewrite list_lookup_insert_ne in Hj by lia. eauto. }
    rewrite MergeResources_again, Hv.
    by rewrite list_insert_insert_eq.
  - destruct (ValidateResource env r) eqn:Hv; [| discriminate].
    intros [= <-]; simpl.
    apply list_find_None in Hfind.
    rewrite upsert_eq; simpl.
    assert (list_find (fun cur => sameIdentity cur r) (Resources cd ++ [r])
            = Some (length (Resources cd), r)) as ->.
    { apply list_find_Some. split_and!.
      - by rewrite lookup_app_r, Nat.sub_diag.
      - done.
      - intros j y Hj Hlt. rewrite lookup_app_l in Hj by done.
        rewrite Forall_forall in Hfind. apply Hfind.
        by eapply list_elem_of_lookup_2. }
    rewrite MergeResources_self, Hv.
    rewrite list_insert_id; [done |].
    by rewrite lookup_app_r, Nat.sub_diag.
Qed.

Lemma addResource_again (o : Options) (path : string) (t : ResourceOptions)
    (st st1 : ComponentDescriptor * FS) :
  Input t = None ->
  addResource env o path t st = (inr tt, st1) ->
  (addResource env o path t st1).2.1 = st1.1.
Proof.
  intros Hin. rewrite !addResource_merge by done.
  destruct (upsert env (Resource_ t) st) as [[err | u] st'] eqn:Hup; [discriminate |].
  destruct u. intros Hp.
  pose proof (persist_descriptor env path st') as Hd. rewrite Hp in Hd. simpl in Hd.
  pose proof (upsert_again _ _ _ st1.2 Hup) as Hup'.
  rewrite <- Hd, <- surjective_pairing in Hup'. rewrite Hup'.
  by rewrite persist_descriptor.
Qed.

End MergeTwice.

(** ** The merge engine: claims on identity, upsert and idempotence *)

Section MergeClaims.
Context {FS Data : Type} `{!FileSystem FS Data}.
Variable env : Env FS Data.

Lemma runLoop_cons (o : Options) (t : ResourceOptions)
    (ts : list ResourceOptions) (st : ComponentDescriptor * FS) :
  runLoop env o (t :: ts) st =
  match addResource env o (resources.compDescFilePath o) t st with
  | (inl err, st') => (inl err, st')
  | (inr _, st') => runLoop env o ts st'
  end.
Proof. reflexivity. Qed.

(** C3. Identity uniqueness: from a descriptor whose resources carry
    pairwise distinct identities (name, version, type, extraIdentity), the
    loop of [Run] over any sequence of templates that take the merge path
    (no [input]) ends, with or without an error, in a descriptor whose
    resources still carry pairwise distinct identities. *)
Theorem identity_uniqueness_preserved (o : Options)
    (ts : list ResourceOptions) (st : ComponentDescriptor * FS) :
  Forall (fun t => Input t = None) ts ->
  NoDup (GetIdentity <$> Resources st.1) ->
  NoDup (GetIdentity <$> Resources (runLoop env o ts st).2.1).
Proof.
  intros Hts. revert st.
  induction Hts as [| t ts Ht _ IH]; intros st Hnd; [done |].
  rewrite runLoop_cons.
  pose proof (addResource_NoDup env o (resources.compDescFilePath o) t st Ht Hnd) as Hstep.
  destruct (addResource env o _ t st) as [[err | u] st']; [done |].
  by apply IH.
Qed.

(** C4. Upsert by identity, on a collection without two entries of one
    identity and an incoming entry that the validation accepts: when no
    entry has the incoming identity the entry is appended unchanged at the
    end; when the entry at position [i] has it, that position receives
    the field-wise merge (identity of the incoming entry; labels, relation
    and access from the incoming entry when set, else from the existing
    one), the length is kept and every other position is untouched. *)
Theorem upsert_by_identity (r : Resource) (cd : ComponentDescriptor) (fs : FS) :
  NoDup (GetIdentity <$> Resources cd) ->
  ((forall e, e ∈ Resources cd -> ~ sameIdentity e r) ->
   ValidateResource env r = [] ->
   upsert env r (cd, fs)
   = (inr tt, (set_Resources (Resources cd ++ [r]) cd, fs)))
  /\ (forall (i : nat) (e : Resource),
        Resources cd !! i = Some e -> sameIdentity e r ->
        let m := cdutils.MergeResources e r in
        ValidateResource env m = [] ->
        upsert env r (cd, fs)
        = (inr tt, (set_Resources (<[i := m]> (Resources cd)) cd, fs))
        /\ GetIdentity m = GetIdentity r
        /\ Labels m = (if decide (Labels r = []) then Labels e else Labels r)
        /\ Relation m = (if decide (Relation r = EmptyString) then Relation e
                        else Relation r)
        /\ Access m = (if decide (Access r = None) then Access e else Access r)
        /\ length (<[i := m]> (Resources cd)) = length (Resources cd)
        /\ <[i := m]> (Resources cd) !! i = Some m
        /\ (forall j : nat, j ≠ i ->
              <[i := m]> (Resources cd) !! j = Resources cd !! j)).
Proof.
  intros Hnd. split.
  - intros Hnone Hv. rewrite upsert_eq.
    assert (list_find (fun cur => sameIdentity cur r) (Resources cd) = None) as ->.
    { apply list_find_None, Forall_forall. exact Hnone. }
    by rewrite Hv.
  - intros i e Hi He m Hv. split_and!.
    + rewrite upsert_eq, (NoDup_identity_first _ _ _ _ Hnd Hi He).
      fold m. by rewrite Hv.
    + done.
    + subst m; simpl. by destruct (Labels r).
    + done.
    + subst m; simpl. by destruct (Access r).
    + apply length_insert.
    + apply list_lookup_insert_eq. by eapply lookup_lt_Some.
    + intros j Hj. by apply list_lookup_insert_ne.
Qed.

(** C9. Merge idempotence: for a template that takes the merge path,
    running the loop of [Run] over the template twice in succession leaves
    the same descriptor as running it over the template once. *)
Theorem merge_idempotent (o : Options) (t : ResourceOptions)
    (st : ComponentDescriptor * FS) :
  Input t = None ->
  (runLoop env o [t; t] st).2.1 = (runLoop env o [t] st).2.1.
Proof.
  intros Hin. rewrite (runLoop_cons o t [t]), (runLoop_cons o t []).
  destruct (addResource env o _ t st) as [[err | u] st1] eqn:Hstep; [done |].
  destruct u. rewrite runLoop_cons.
  pose proof (addResource_again env o _ t st st1 Hin Hstep) as Hagain.
  by destruct (addResource env o _ t st1) as [[err | u] st2].
Qed.

End MergeClaims.

(** The three claims at work on the test bench. *)

Lemma identity_uniqueness_preserved_witness :
  let out :=
    runLoop testbench.env testbench.opts
      [{| Resource_ := testbench.newAccess; Input := None |};
       set_ResourceVersion "1.0.0" testbench.localNoVersion;
       testbench.myimage]
      (testbench.withImage, testbench.archiveWith testbench.withImage []) in
  out.1 = inr tt
  /\ Name <$> Resources out.2.1 = ["myimage"; "mylocal"]
  /\ Resources out.2.1 !! 0%nat = Some (Resource_ testbench.myimage)
  /\ NoDup (GetIdentity <$> Resources out.2.1).
Proof.
  split_and!; [reflexivity | reflexivity | reflexivity |].
  apply (identity_uniqueness_preserved testbench.env testbench.opts).
  - repeat constructor.
  - simpl. apply NoDup_singleton.
Defined.

Lemma upsert_by_identity_witness :
  upsert testbench.env (Resource_ testbench.myimage)
    (testbench.emptyDescriptor, testbench.archiveWith testbench.emptyDescriptor [])
  = (inr tt,
     (set_Resources [Resource_ testbench.myimage] testbench.emptyDescriptor,
      testbench.archiveWith testbench.emptyDescriptor []))
  /\ upsert testbench.env testbench.newAccess
       (testbench.withImage, testbench.archiveWith testbench.withImage [])
     = (inr tt,
        (set_Resources
           [testbench.mkResource "myimage" "0.2.0" "ociImage" ExternalRelation
              (Some testbench.mirrorAccess)]
           testbench.withImage,
         testbench.archiveWith testbench.withImage [])).
Proof.
  split.
  - apply (upsert_by_identity testbench.env (Resource_ testbench.myimage)
             testbench.emptyDescriptor).
    + simpl. constructor.
    + simpl. intros e He. by apply not_elem_of_nil in He.
    + reflexivity.
  - assert (NoDup (GetIdentity <$> Resources testbench.withImage)) as Hnd.
    { simpl. apply NoDup_singleton. }
    destruct (upsert_by_identity testbench.env testbench.newAccess
                testbench.withImage
                (testbench.archiveWith testbench.withImage []) Hnd) as [_ Hmerge].
    apply (Hmerge 0%nat (Resource_ testbench.myimage));
      [reflexivity | reflexivity | reflexivity].
Defined.

Lemma merge_idempotent_witness :
  (runLoop testbench.env testbench.opts [testbench.myimage; testbench.myimage]
     (testbench.emptyDescriptor,
      testbench.archiveWith testbench.emptyDescriptor [])).2.1
  = (runLoop testbench.env testbench.opts [testbench.myimage]
       (testbench.emptyDescriptor,
        testbench.archiveWith testbench.emptyDescriptor [])).2.1.
Proof. apply (merge_idempotent testbench.env). reflexivity. Defined.

(** ** The decoder: claims on defaults, conflicts, order and errors *)

Lemma sound_before_tail (d : string + ResourceOptions)
    (dec : list (string + ResourceOptions)) (i : nat) :
  sound_before (d :: dec) (S i) -> sound_before dec i.
Proof. intros H j Hj. apply (H (S j)). lia. Qed.

Lemma decodeLoop_conflict_at (cd : ComponentDescriptor)
    (dec : list (string + ResourceOptions)) (acc : list ResourceOptions)
    (i : nat) (t : ResourceOptions) :
  dec !! i = Some (inr t) -> conflicting t = true -> sound_before dec i ->
  decodeLoop cd dec acc
  = inl (Errorf ("the resources " +:+ fmt_q (Name (Resource_ t))
          +:+ " input and access is defind. Only one option is allowed")).
Proof.
  revert acc i. induction dec as [| d dec IH]; intros acc i Hi Ht Hbefore; [done |].
  destruct i as [| i].
  - injection Hi as ->.
    by apply (decodeLoop_conflict cd [] t dec acc).
  - destruct (Hbefore 0%nat) as (u & [= ->] & Hu); [lia |]. simpl.
    rewrite conflicting_defaultVersion, Hu.
    eapply IH; [exact Hi | done | by eapply sound_before_tail].
Qed.

Lemma decodeLoop_malformed_at (cd : ComponentDescriptor)
    (dec : list (string + ResourceOptions)) (acc : list ResourceOptions)
    (i : nat) (msg : string) :
  dec !! i = Some (inl msg) -> sound_before dec i ->
  decodeLoop cd dec acc = inl (Wrap "unable to decode resource" (ErrOther msg)).
Proof.
  revert acc i. induction dec as [| d dec IH]; intros acc i Hi Hbefore; [done |].
  destruct i as [| i].
  - by injection Hi as ->.
  - destruct (Hbefore 0%nat) as (u & [= ->] & Hu); [lia |]. simpl.
    rewrite conflicting_defaultVersion, Hu.
    eapply IH; [exact Hi | by eapply sound_before_tail].
Qed.

Lemma conflicting_true (t : ResourceOptions) :
  is_Some (Input t) -> is_Some (Access (Resource_ t)) -> conflicting t = true.
Proof. intros [inp Hinp] [a Ha]. unfold conflicting. by rewrite Hinp, Ha. Qed.

Section ReaderClaims.
Context {FS Data : Type} `{!FileSystem FS Data}.
Variable env : Env FS Data.

Lemma Run_eq (o : Options) (stdin : os_Stdin Data) (fs : FS) :
  Run env o stdin fs =
  match Build env (BuilderOptions_ o) fs with
  | (inl err, fs1) => (inl err, fs1)
  | (inr archive, fs1) =>
      match generateResources env o stdin archive fs1 with
      | (inl err, fs2) => (inl err, fs2)
      | (inr rs, fs2) =>
          let '(r, st) := runLoop env o rs (archive, fs2) in (r, st.2)
      end
  end.
Proof. reflexivity. Qed.

(** Reading the templates leaves the file system as it is. *)
Lemma resourcesFromPath_state (o : Options) (cd : ComponentDescriptor) (fs : FS) :
  (resourcesFromPath env o cd fs).2 = fs.
Proof.
  unfold resourcesFromPath, bind, wrapping, attempt, ret.
  case_decide; [| done]. simpl.
  destruct (Open fs (ResourceObjectPath o)); [done |]. simpl.
  by destruct (generateResourcesFromReader env cd d).
Qed.

Lemma generateResources_state (o : Options) (stdin : os_Stdin Data)
    (cd : ComponentDescriptor) (fs : FS) :
  (generateResources env o stdin cd fs).2 = fs.
Proof.
  unfold generateResources, bind.
  pose proof (resourcesFromPath_state o cd fs) as Hp.
  destruct (resourcesFromPath env o cd fs) as [[err | rs] fs1]; simpl in Hp; subst fs1;
    [done |].
  unfold wrapping, attempt, ret; simpl.
  destruct (StdinStat stdin) as [err | info]; [done |]. simpl.
  destruct (ModeNamedPipe info || negb (StdinSize info =? 0)); [| done].
  by destruct (generateResourcesFromReader env cd (StdinReader stdin)).
Qed.

Lemma resourcesFromPath_open (o : Options) (cd : ComponentDescriptor) (fs : FS)
    (reader : Data) :
  ResourceObjectPath o ≠ EmptyString ->
  Open fs (ResourceObjectPath o) = inr reader ->
  resourcesFromPath env o cd fs =
  (match generateResourcesFromReader env cd reader with
   | inl err => inl (Wrap ("unable to read resources from " +:+ ResourceObjectPath o) err)
   | inr rs => inr rs
   end, fs).
Proof.
  intros Hpath Hopen. unfold resourcesFromPath, bind, wrapping, attempt.
  case_decide; [| done]. simpl. rewrite Hopen. simpl.
  by destruct (generateResourcesFromReader env cd reader).
Qed.

(** When the templates cannot be generated, [Run] stops with that error
    before the loop: the file system stays as [Build] left it. *)
Lemma Run_generate_error (o : Options) (stdin : os_Stdin Data) (fs fs1 : FS)
    (cd : ComponentDescriptor) (err : Error) :
  Build env (BuilderOptions_ o) fs = (inr cd, fs1) ->
  (generateResources env o stdin cd fs1).1 = inl err ->
  Run env o stdin fs = (inl err, fs1).
Proof.
  intros Hb Hg. rewrite Run_eq, Hb.
  pose proof (generateResources_state o stdin cd fs1) as Hs.
  destruct (generateResources env o stdin cd fs1) as [r fs2].
  simpl in *. by subst.
Qed.

Lemma runLoop_app (o : Options) (rsA rsB : list ResourceOptions)
    (st : ComponentDescriptor * FS) :
  runLoop env o (rsA ++ rsB) st =
  match runLoop env o rsA st with
  | (inl err, st') => (inl err, st')
  | (inr _, st') => runLoop env o rsB st'
  end.
Proof.
  revert st. induction rsA as [| t rsA IH]; intros st; [done |].
  simpl. rewrite !runLoop_cons.
  destruct (addResource env o _ t st) as [[err | u] st']; [done |].
  apply IH.
Qed.

End ReaderClaims.


Section DecoderClaims.
Context {FS Data : Type} `{!FileSystem FS Data}.
Variable env : Env FS Data.

(** C5. Local default-fill: when the templates of a reader are generated, a
    document with relation [local] and an empty version comes out, at its
    position, with the version of the component descriptor; and when such a
    template without [input] then goes through the merge step of [Run] on a
    descriptor of that version, the entry stored under its identity has the
    descriptor's version. *)
Theorem local_version_default_fill (cd : ComponentDescriptor) (reader : Data)
    (rs : list ResourceOptions) (i : nat) (t : ResourceOptions) :
  generateResourcesFromReader env cd reader = inr rs ->
  NewYAMLOrJSONDecoder env reader !! i = Some (inr t) ->
  Relation (Resource_ t) = LocalRelation ->
  Version (Resource_ t) = EmptyString ->
  let r := set_ResourceVersion (GetVersion cd) t in
  rs !! i = Some r
  /\ Version (Resource_ r) = GetVersion cd
  /\ (Input t = None ->
      forall (cd' : ComponentDescriptor) (fs : FS) (st' : ComponentDescriptor * FS),
        GetVersion cd' = GetVersion cd ->
        upsert env (Resource_ r) (cd', fs) = (inr tt, st') ->
        exists (j : nat) (e : Resource),
          Resources st'.1 !! j = Some e
          /\ sameIdentity e (Resource_ r)
          /\ Version e = GetVersion st'.1).
Proof.
  intros Hgen Hi Hrel Hver r. split_and!.
  - apply decodeLoop_inr in Hgen as (ts & Hdec & _ & ->). simpl.
    rewrite Hdec, list_lookup_fmap in Hi.
    destruct (ts !! i) as [t' |] eqn:Hti; [| done].
    injection Hi as ->.
    rewrite list_lookup_fmap, Hti. simpl.
    by rewrite Version_defaultVersion_local.
  - done.
  - intros _ cd' fs st' Hcd'. rewrite upsert_eq.
    destruct (list_find _ _) as [[j e] |] eqn:Hfind.
    + apply list_find_Some in Hfind as (Hj & _ & _).
      destruct (ValidateResource env _); [| discriminate].
      intros [= <-]. exists j, (cdutils.MergeResources e (Resource_ r)). simpl.
      split_and!; [| done | done].
      apply list_lookup_insert_eq. by eapply lookup_lt_Some.
    + destruct (ValidateResource env _); [| discriminate].
      intros [= <-]. exists (length (Resources cd')), (Resource_ r). simpl.
      split_and!; [| done | done].
      by rewrite lookup_app_r, Nat.sub_diag.
Qed.

(** C6. A document that sets both [access] and [input] makes the generation
    of the templates fail: no template list comes back, and when every
    document before it decodes and keeps the two apart the error is the one
    that names the resource.  [Run] then returns an error and leaves the
    file system as [Build] left it, whether the document came from the
    template file or from the piped input: nothing is merged. *)
Theorem conflicting_resource_rejected (cd : ComponentDescriptor) (reader : Data)
    (i : nat) (t : ResourceOptions) :
  NewYAMLOrJSONDecoder env reader !! i = Some (inr t) ->
  is_Some (Input t) -> is_Some (Access (Resource_ t)) ->
  (exists err, generateResourcesFromReader env cd reader = inl err)
  /\ (sound_before (NewYAMLOrJSONDecoder env reader) i ->
      generateResourcesFromReader env cd reader
      = inl (Errorf ("the resources " +:+ fmt_q (Name (Resource_ t))
              +:+ " input and access is defind. Only one option is allowed")))
  /\ (forall (o : Options) (stdin : os_Stdin Data) (fs fs1 : FS),
        Build env (BuilderOptions_ o) fs = (inr cd, fs1) ->
        ResourceObjectPath o ≠ EmptyString ->
        Open fs1 (ResourceObjectPath o) = inr reader ->
        exists err, Run env o stdin fs = (inl err, fs1))
  /\ (forall (o : Options) (stdin : os_Stdin Data) (fs fs1 : FS)
             (info : StdinInfo) (fileRs : list ResourceOptions),
        Build env (BuilderOptions_ o) fs = (inr cd, fs1) ->
        resourcesFromPath env o cd fs1 = (inr fileRs, fs1) ->
        StdinStat stdin = inr info ->
        ModeNamedPipe info || negb (StdinSize info =? 0) = true ->
        StdinReader stdin = reader ->
        exists err, Run env o stdin fs = (inl err, fs1)).
Proof.
  intros Hi Hinp Hacc.
  pose proof (conflicting_true t Hinp Hacc) as Hc.
  assert (exists err, generateResourcesFromReader env cd reader = inl err)
    as [err Herr].
  { destruct (generateResourcesFromReader env cd reader) as [err | rs] eqn:Hgen;
      [by exists err |].
    apply decodeLoop_inr in Hgen as (ts & Hdec & Hts & _).
    rewrite Hdec, list_lookup_fmap in Hi.
    destruct (ts !! i) as [t' |] eqn:Hti; [| done].
    injection Hi as ->.
    rewrite Forall_lookup in Hts. specialize (Hts i t Hti). congruence. }
  split_and!.
  - by exists err.
  - intros Hbefore. by eapply decodeLoop_conflict_at.
  - intros o stdin fs fs1 Hb Hpath Hopen. eexists.
    apply (Run_generate_error env o stdin fs fs1 cd); [done |].
    unfold generateResources, bind.
    by rewrite (resourcesFromPath_open env o cd fs1 reader Hpath Hopen), Herr.
  - intros o stdin fs fs1 info fileRs Hb Hfile Hstat Hpipe Hreader. eexists.
    apply (Run_generate_error env o stdin fs fs1 cd); [done |].
    unfold generateResources, bind, wrapping, attempt. rewrite Hfile. simpl.
    rewrite Hstat. simpl. rewrite Hpipe, Hreader, Herr. done.
Qed.

(** C7. Two origins: with a template file whose documents generate [fileRs]
    and a readable [os.Stdin], the templates are the file's followed by the
    piped ones when the standard input is a named pipe or has a size other
    than zero, and the file's alone otherwise (the piped reader is then not
    consulted); [Run] processes a list of templates front to back, so the
    file's are merged before the piped ones. *)
Theorem file_documents_before_piped (o : Options) (stdin : os_Stdin Data)
    (cd : ComponentDescriptor) (fs : FS) (reader : Data)
    (fileRs : list ResourceOptions) (info : StdinInfo) :
  ResourceObjectPath o ≠ EmptyString ->
  Open fs (ResourceObjectPath o) = inr reader ->
  generateResourcesFromReader env cd reader = inr fileRs ->
  StdinStat stdin = inr info ->
  (ModeNamedPipe info = true \/ StdinSize info ≠ 0 ->
   forall stdinRs : list ResourceOptions,
     generateResourcesFromReader env cd (StdinReader stdin) = inr stdinRs ->
     generateResources env o stdin cd fs = (inr (fileRs ++ stdinRs), fs)
     /\ forall st : ComponentDescriptor * FS,
          runLoop env o (fileRs ++ stdinRs) st =
          match runLoop env o fileRs st with
          | (inl err, st') => (inl err, st')
          | (inr _, st') => runLoop env o stdinRs st'
          end)
  /\ (ModeNamedPipe info = false -> StdinSize info = 0 ->
      generateResources env o stdin cd fs = (inr fileRs, fs)).
Proof.
  intros Hpath Hopen Hfile Hstat.
  assert (resourcesFromPath env o cd fs = (inr fileRs, fs)) as Hfrom.
  { by rewrite (resourcesFromPath_open env o cd fs reader Hpath Hopen), Hfile. }
  split.
  - intros Hpipe stdinRs Hin. split; [| intros st; apply runLoop_app].
    unfold generateResources, bind, wrapping, attempt, ret. rewrite Hfrom. simpl.
    rewrite Hstat. simpl.
    assert (ModeNamedPipe info || negb (StdinSize info =? 0) = true) as ->.
    { destruct Hpipe as [-> | Hsize]; [done |].
      apply orb_true_iff. right. apply negb_true_iff. by apply Z.eqb_neq. }
    by rewrite Hin.
  - intros Hmode Hsize.
    unfold generateResources, bind, wrapping, attempt, ret. rewrite Hfrom. simpl.
    rewrite Hstat. simpl. by rewrite Hmode, Hsize.
Qed.

(** C8, as the decoder has it.  Documents that all decode and keep [access]
    and [input] apart come out one template per document, in file order,
    and the end of the stream is a clean end.  A stream whose first refused
    document is malformed fails with [unable to decode resource] around the
    decoder's own error, to which no ordinal is added; no template list
    comes back, and what follows the malformed document has no bearing on
    the outcome. *)
Theorem decoder_in_order_or_first_error (cd : ComponentDescriptor) (reader : Data) :
  (forall ts : list ResourceOptions,
     NewYAMLOrJSONDecoder env reader = inr <$> ts ->
     Forall (fun t => conflicting t = false) ts ->
     generateResourcesFromReader env cd reader = inr (defaultVersion cd <$> ts))
  /\ (forall (i : nat) (msg : string),
        NewYAMLOrJSONDecoder env reader !! i = Some (inl msg) ->
        sound_before (NewYAMLOrJSONDecoder env reader) i ->
        generateResourcesFromReader env cd reader
        = inl (Wrap "unable to decode resource" (ErrOther msg))
        /\ forall reader' : Data,
             take (S i) (NewYAMLOrJSONDecoder env reader')
             = take (S i) (NewYAMLOrJSONDecoder env reader) ->
             generateResourcesFromReader env cd reader'
             = generateResourcesFromReader env cd reader).
Proof.
  split.
  - intros ts Hdec Hts. unfold generateResourcesFromReader.
    rewrite Hdec. by rewrite decodeLoop_all.
  - intros i msg Hi Hbefore.
    assert (forall reader' : Data,
              take (S i) (NewYAMLOrJSONDecoder env reader')
              = take (S i) (NewYAMLOrJSONDecoder env reader) ->
              generateResourcesFromReader env cd reader'
              = inl (Wrap "unable to decode resource" (ErrOther msg))) as Hany.
    { intros reader' Htake. apply (decodeLoop_malformed_at cd _ [] i).
      - rewrite <- (lookup_take_lt _ (S i)) by lia.
        rewrite Htake, lookup_take_lt by lia. done.
      - intros j Hj. destruct (Hbefore j Hj) as (u & Hu & Hc).
        exists u. split; [| done].
        rewrite <- (lookup_take_lt _ (S i)) by lia.
        rewrite Htake, lookup_take_lt by lia. done. }
    split; [by apply Hany |].
    intros reader' Htake. by rewrite (Hany reader' Htake), (Hany reader).
Qed.

End DecoderClaims.

(** ** Persisting the descriptor *)

Section Persist.
Context {FS Data : Type} `{!FileSystem FS Data}.
Variable env : Env FS Data.

Lemma encode_eq (cd : ComponentDescriptor) (fs : FS) :
  encode env (cd, fs) =
  match Validate env cd with
  | Some err => (inl (Wrap "invalid resource" err), (cd, fs))
  | None =>
      match Marshal env cd with
      | inl err => (inl (Wrap "unable to encode component descriptor" err), (cd, fs))
      | inr data => (inr data, (cd, fs))
      end
  end.
Proof.
  unfold encode, bind, get, wrapping, attempt, throw, ret; simpl.
  destruct (Validate env cd); [done |]. simpl.
  by destruct (Marshal env cd).
Qed.

Lemma persist_eq (path : string) (cd : ComponentDescriptor) (fs : FS) :
  persist env path (cd, fs) =
  match encode env (cd, fs) with
  | (inl err, st) => (inl err, st)
  | (inr data, _) =>
      (match (WriteFile fs path data 436).1 with
       | Some err => inl (Wrap "unable to write modified comonent descriptor" err)
       | None => inr tt
       end, (cd, (WriteFile fs path data 436).2))
  end.
Proof.
  unfold persist, bind. rewrite encode_eq.
  destruct (Validate env cd); [done |].
  destruct (Marshal env cd) as [err | data]; [done |].
  unfold write, wrapping; simpl.
  by destruct (WriteFile fs path data 436) as [[err |] fs'].
Qed.

(** The merge step does not touch the file system. *)
Lemma upsert_fs (r : Resource) (cd : ComponentDescriptor) (fs : FS) :
  (upsert env r (cd, fs)).2.2 = fs.
Proof.
  rewrite upsert_eq.
  destruct (list_find _ _) as [[i e] |]; by destruct (ValidateResource env _).
Qed.

Lemma encode_fs (cd : ComponentDescriptor) (fs : FS) :
  (encode env (cd, fs)).2 = (cd, fs).
Proof.
  rewrite encode_eq. destruct (Validate env cd); [done |].
  by destruct (Marshal env cd).
Qed.

(** A merge-path template that goes through was validated, serialized and
    written over the descriptor file, and its entry is in the descriptor. *)
Lemma addResource_ok (o : Options) (path : string) (t : ResourceOptions)
    (cd cd1 : ComponentDescriptor) (fs fs2 : FS) :
  Input t = None ->
  addResource env o path t (cd, fs) = (inr tt, (cd1, fs2)) ->
  upsert env (Resource_ t) (cd, fs) = (inr tt, (cd1, fs))
  /\ exists data, Marshal env cd1 = inr data
                  /\ WriteFile fs path data 436 = (None, fs2).
Proof.
  intros Hin. rewrite addResource_merge by done.
  pose proof (upsert_fs (Resource_ t) cd fs) as Hfs.
  destruct (upsert env (Resource_ t) (cd, fs)) as [[err | u] [cd' fs']];
    [discriminate |].
  simpl in Hfs. subst fs'. destruct u.
  rewrite persist_eq, encode_eq.
  destruct (Validate env cd'); [discriminate |].
  destruct (Marshal env cd') as [err | data] eqn:Hm; [discriminate |].
  destruct (WriteFile fs path data 436) as [[err |] fs'] eqn:Hw; simpl;
    [discriminate |].
  intros [= -> ->]. split; [done |]. by exists data.
Qed.

(** After a successful merge step the descriptor holds an entry of the
    incoming identity. *)
Lemma upsert_stored (r : Resource) (st st' : ComponentDescriptor * FS) :
  upsert env r st = (inr tt, st') ->
  exists (i : nat) (e : Resource),
    Resources st'.1 !! i = Some e /\ sameIdentity e r.
Proof.
  destruct st as [cd fs]. rewrite upsert_eq.
  destruct (list_find _ _) as [[i e] |] eqn:Hfind.
  - apply list_find_Some in Hfind as (Hi & _ & _).
    destruct (ValidateResource env _); [| discriminate].
    intros [= <-]. exists i, (cdutils.MergeResources e r). simpl.
    split; [| done]. apply list_lookup_insert_eq. by eapply lookup_lt_Some.
  - destruct (ValidateResource env r); [| discriminate].
    intros [= <-]. exists (length (Resources cd)), r. simpl.
    split; [| done]. by rewrite lookup_app_r, Nat.sub_diag.
Qed.

End Persist.

(** The registry contexts of [init] are folded over the contexts alone. *)
Lemma addRegistryContexts_eq (urls : list string) (cd : ComponentDescriptor) :
  componentarchive.addRegistryContexts urls cd
  = set_RepositoryContexts
      (fold_left (fun rcs url => utils.AddRepositoryContext rcs OCIRegistryType url)
         urls (RepositoryContexts cd)) cd.
Proof.
  revert cd. induction urls as [| url urls IH]; intros cd; simpl.
  - by destruct cd.
  - unfold componentarchive.addRegistryContexts in *. simpl. by rewrite IH.
Qed.

Lemma elem_of_AddRepositoryContext (rcs : list RepositoryContext)
    (type url : string) (rc : RepositoryContext) :
  rc ∈ utils.AddRepositoryContext rcs type url
  <-> rc ∈ rcs \/ rc = {| RCType := type; BaseURL := url |}.
Proof.
  unfold utils.AddRepositoryContext. case_decide as Hin.
  - split; [by left |]. intros [? | ->]; done.
  - rewrite elem_of_app, list_elem_of_singleton. done.
Qed.

Lemma elem_of_fold_AddRepositoryContext (urls : list string)
    (rcs : list RepositoryContext) (rc : RepositoryContext) :
  rc ∈ fold_left (fun rcs url => utils.AddRepositoryContext rcs OCIRegistryType url)
         urls rcs
  <-> rc ∈ rcs \/ exists url, url ∈ urls
                              /\ rc = {| RCType := OCIRegistryType; BaseURL := url |}.
Proof.
  revert rcs. induction urls as [| url urls IH]; intros rcs; simpl.
  - split; [by left |]. intros [? | (url & Hin & _)]; [done |].
    by apply not_elem_of_nil in Hin.
  - rewrite IH, elem_of_AddRepositoryContext. split.
    + intros [[? | ->] | (u & Hu & ->)].
      * by left.
      * right. exists url. split; [apply list_elem_of_here | done].
      * right. exists u. split; [by apply list_elem_of_further | done].
    + intros [? | (u & Hu & ->)]; [by left; left |].
      apply elem_of_cons in Hu as [-> | Hu]; [by left; right |].
      right. by exists u.
Qed.

(** ** [Run]: partial failure, persistence and [init] *)

Section RunClaims.
Context {FS Data : Type} `{!FileSystem FS Data}.
Variable env : Env FS Data.

(** C1, as [Run] has it.  [Run] generates every template before it merges
    any.  When the generation fails (a malformed document, or one with both
    [access] and [input]), [Run] returns that error and the file system is as
    [Build] left it: nothing of the earlier documents is persisted.  When
    two merge-path templates are generated, the first goes through and the
    second fails in the merge step or in the validation and serialization of
    the descriptor, [Run] returns the second's error and the file system is
    the one left by the successful write of the descriptor that holds the
    first template's entry. *)
Theorem first_document_kept_on_validation_failure (o : Options)
    (stdin : os_Stdin Data) (fs fs1 : FS) (cd : ComponentDescriptor) :
  Build env (BuilderOptions_ o) fs = (inr cd, fs1) ->
  (forall err : Error,
     (generateResources env o stdin cd fs1).1 = inl err ->
     Run env o stdin fs = (inl err, fs1))
  /\ (forall (t1 t2 : ResourceOptions) (cd1 : ComponentDescriptor) (fs2 : FS)
            (err : Error) (st' : ComponentDescriptor * FS),
        generateResources env o stdin cd fs1 = (inr [t1; t2], fs1) ->
        Input t1 = None -> Input t2 = None ->
        addResource env o (resources.compDescFilePath o) t1 (cd, fs1)
        = (inr tt, (cd1, fs2)) ->
        bind (upsert env (Resource_ t2)) (fun _ => encode env) (cd1, fs2)
        = (inl err, st') ->
        Run env o stdin fs = (inl err, fs2)
        /\ (exists data : Data,
              Marshal env cd1 = inr data
              /\ WriteFile fs1 (resources.compDescFilePath o) data 436 = (None, fs2))
        /\ (exists (i : nat) (e : Resource),
              Resources cd1 !! i = Some e /\ sameIdentity e (Resource_ t1))).
Proof.
  intros Hb. split.
  - intros err Hgen. by apply (Run_generate_error env o stdin fs fs1 cd).
  - intros t1 t2 cd1 fs2 err st' Hgen Hin1 Hin2 Hadd Hfail.
    destruct (addResource_ok env o _ t1 cd cd1 fs1 fs2 Hin1 Hadd) as [Hup Hwrite].
    split_and!; [| done | by apply (upsert_stored env _ _ _ Hup)].
    rewrite Run_eq, Hb, Hgen, runLoop_cons, Hadd. cbv beta iota.
    rewrite runLoop_cons, addResource_merge by done.
    unfold bind in Hfail.
    pose proof (upsert_fs env (Resource_ t2) cd1 fs2) as Hfs.
    destruct (upsert env (Resource_ t2) (cd1, fs2)) as [[e | u] [cd2 fs3]];
      simpl in Hfs; subst fs3.
    + by injection Hfail as -> <-.
    + rewrite persist_eq.
      pose proof (encode_fs env cd2 fs2) as Hst.
      destruct (encode env (cd2, fs2)) as [[e | data] st]; [| discriminate].
      simpl in Hst. subst st. by injection Hfail as -> <-.
Qed.

(** C2, as the commands have it.  A persist is one [WriteFile] of the
    serialized descriptor onto the descriptor file itself: once the
    descriptor has validated and serialized, the outcome of [add]'s persist
    and of [init] is the outcome of that call (its error wrapped, if any)
    and the file system is the one that call leaves; no temporary file and
    no rename stand between a failed write and the previous content. *)
Theorem persist_is_one_direct_write :
  (forall (path : string) (cd : ComponentDescriptor) (fs : FS) (data : Data),
     Validate env cd = None -> Marshal env cd = inr data ->
     persist env path (cd, fs)
     = (match (WriteFile fs path data 436).1 with
        | Some err => inl (Wrap "unable to write modified comonent descriptor" err)
        | None => inr tt
        end, (cd, (WriteFile fs path data 436).2)))
  /\ (forall (o : componentarchive.InitOptions) (fs fs0 : FS) (data : Data),
        componentarchive.ensureDirectory o fs = (inr tt, fs0) ->
        let cd := componentarchive.addRegistryContexts
                    (componentarchive.OCIRegistryURLs o)
                    (componentarchive.baseDescriptor o) in
        Validate env cd = None -> Marshal env cd = inr data ->
        componentarchive.Run (Validate env) (Marshal env) o fs
        = (match (WriteFile fs0 (componentarchive.compDescFilePath o) data 420).1 with
           | Some err => inl (Wrap "unable to write comonent descriptor" err)
           | None => inr tt
           end,
           (WriteFile fs0 (componentarchive.compDescFilePath o) data 420).2)).
Proof.
  split.
  - intros path cd fs data Hv Hm. by rewrite persist_eq, encode_eq, Hv, Hm.
  - intros o fs fs0 data Hdir cd Hv Hm.
    unfold componentarchive.Run, bind. rewrite Hdir.
    unfold wrapping, attempt, DefaultComponent, throw, ret; simpl.
    fold cd. rewrite Hv, Hm.
    by destruct (WriteFile fs0 _ data 420) as [[err |] fs'].
Qed.

(** C10. On an archive path that is a directory and already holds a
    descriptor file, [init] (its validation, serialization and write going
    through) returns no error and leaves the file system that the write of
    the fresh descriptor over the descriptor file leaves.  The fresh
    descriptor has the given name and version, the internal provider, empty
    collections, and as registry contexts exactly the given URLs.  [Run]
    never looks at the descriptor file before writing it. *)
Theorem init_overwrites_existing_descriptor
    (o : componentarchive.InitOptions) (fs fs' : FS) (data : Data) :
  Stat fs (componentarchive.ComponentArchivePath o) = inr {| IsDir := true |} ->
  Stat fs (componentarchive.compDescFilePath o) = inr {| IsDir := false |} ->
  let cd := componentarchive.addRegistryContexts
              (componentarchive.OCIRegistryURLs o)
              (componentarchive.baseDescriptor o) in
  Validate env cd = None -> Marshal env cd = inr data ->
  WriteFile fs (componentarchive.compDescFilePath o) data 420 = (None, fs') ->
  componentarchive.Run (Validate env) (Marshal env) o fs = (inr tt, fs')
  /\ CDName cd = componentarchive.ComponentName o
  /\ CDVersion cd = componentarchive.ComponentVersion o
  /\ Provider cd = InternalProvider
  /\ Resources cd = [] /\ Sources cd = [] /\ ComponentReferences cd = []
  /\ (forall rc : RepositoryContext,
        rc ∈ RepositoryContexts cd
        <-> exists url, url ∈ componentarchive.OCIRegistryURLs o
                        /\ rc = {| RCType := OCIRegistryType; BaseURL := url |}).
Proof.
  intros Hdir Hfile cd Hv Hm Hw.
  assert (cd = set_RepositoryContexts
                 (fold_left (fun rcs url =>
                               utils.AddRepositoryContext rcs OCIRegistryType url)
                    (componentarchive.OCIRegistryURLs o) [])
                 (componentarchive.baseDescriptor o)) as Hcd.
  { subst cd. by rewrite addRegistryContexts_eq. }
  split_and!; try (rewrite Hcd; reflexivity).
  - unfold componentarchive.Run, bind, componentarchive.ensureDirectory.
    rewrite Hdir. simpl.
    unfold wrapping, attempt, DefaultComponent, throw, ret; simpl.
    fold cd. rewrite Hv, Hm, Hw. done.
  - intros rc. rewrite Hcd. simpl.
    rewrite elem_of_fold_AddRepositoryContext. split.
    + intros [Hnil | ?]; [by apply not_elem_of_nil in Hnil | done].
    + by right.
Qed.

End RunClaims.

(** ** The claims on the test bench *)

Import testbench.

Lemma local_version_default_fill_witness :
  generateResourcesFromReader env emptyDescriptor
    (TemplateFile [inr myimage; inr localNoVersion])
  = inr [myimage; set_ResourceVersion "1.0.0" localNoVersion]
  /\ exists (j : nat) (e : Resource),
       Resources
         (upsert env (Resource_ (set_ResourceVersion "1.0.0" localNoVersion))
            (withImage, archiveWith withImage [])).2.1 !! j = Some e
       /\ Name e = "mylocal" /\ Version e = "1.0.0".
Proof.
  split; [reflexivity |].
  destruct (local_version_default_fill env emptyDescriptor
              (TemplateFile [inr myimage; inr localNoVersion])
              [myimage; set_ResourceVersion "1.0.0" localNoVersion]
              1%nat localNoVersion)
    as (_ & _ & Hstored); [reflexivity.. |].
  destruct (Hstored eq_refl withImage (archiveWith withImage [])
              (upsert env (Resource_ (set_ResourceVersion "1.0.0" localNoVersion))
                 (withImage, archiveWith withImage [])).2)
    as (j & e & Hj & Hid & Hver); [reflexivity | reflexivity |].
  exists j, e. split_and!; [exact Hj | | exact Hver].
  unfold sameIdentity, GetIdentity in Hid. by injection Hid.
Defined.

Lemma conflicting_resource_rejected_witness :
  generateResourcesFromReader env emptyDescriptor
    (TemplateFile [inr myimage; inr both])
  = inl (Errorf ("the resources " +:+ fmt_q "myconfig"
          +:+ " input and access is defind. Only one option is allowed"))
  /\ (exists err,
        Run env opts noStdin (archiveWith emptyDescriptor [inr myimage; inr both])
        = (inl err, archiveWith emptyDescriptor [inr myimage; inr both]))
  /\ (exists err,
        Run env opts (pipedStdin [inr myimage; inr both])
          (archiveWith emptyDescriptor [inr localNoVersion])
        = (inl err, archiveWith emptyDescriptor [inr localNoVersion])).
Proof.
  destruct (conflicting_resource_rejected env emptyDescriptor
              (TemplateFile [inr myimage; inr both]) 1%nat both)
    as (_ & Hname & Hfile & Hpiped); [reflexivity | by eexists | by eexists |].
  split_and!.
  - apply Hname. intros j Hj. exists myimage.
    destruct j as [| j]; [done | lia].
  - apply Hfile; [reflexivity | done | reflexivity].
  - apply (Hpiped opts _ _ _ {| ModeNamedPipe := true; StdinSize := 0 |}
             [set_ResourceVersion "1.0.0" localNoVersion]);
      reflexivity.
Defined.

Lemma file_documents_before_piped_witness :
  generateResources env opts (pipedStdin [inr localNoVersion]) emptyDescriptor
    (archiveWith emptyDescriptor [inr myimage])
  = (inr [myimage; set_ResourceVersion "1.0.0" localNoVersion],
     archiveWith emptyDescriptor [inr myimage])
  /\ generateResources env opts noStdin emptyDescriptor
       (archiveWith emptyDescriptor [inr myimage])
     = (inr [myimage], archiveWith emptyDescriptor [inr myimage]).
Proof.
  split.
  - destruct (file_documents_before_piped env opts (pipedStdin [inr localNoVersion])
                emptyDescriptor (archiveWith emptyDescriptor [inr myimage])
                (TemplateFile [inr myimage]) [myimage]
                {| ModeNamedPipe := true; StdinSize := 0 |})
      as [Hpiped _]; [done | reflexivity | reflexivity | reflexivity |].
    destruct (Hpiped (or_introl eq_refl)
                [set_ResourceVersion "1.0.0" localNoVersion] eq_refl)
      as [Hgen _].
    exact Hgen.
  - destruct (file_documents_before_piped env opts noStdin
                emptyDescriptor (archiveWith emptyDescriptor [inr myimage])
                (TemplateFile [inr myimage]) [myimage]
                {| ModeNamedPipe := false; StdinSize := 0 |})
      as [_ Hnone]; [done | reflexivity | reflexivity | reflexivity |].
    exact (Hnone eq_refl eq_refl).
Defined.

Lemma decoder_in_order_or_first_error_witness :
  generateResourcesFromReader env emptyDescriptor
    (TemplateFile [inr myimage; inr localNoVersion])
  = inr [myimage; set_ResourceVersion "1.0.0" localNoVersion]
  /\ generateResourcesFromReader env emptyDescriptor
       (TemplateFile [inr myimage; inl "did not find expected key"; inr both])
     = inl (Wrap "unable to decode resource" (ErrOther "did not find expected key")).
Proof.
  split.
  - destruct (decoder_in_order_or_first_error env emptyDescriptor
                (TemplateFile [inr myimage; inr localNoVersion])) as [Hall _].
    apply (Hall [myimage; localNoVersion]); [reflexivity | by repeat constructor].
  - destruct (decoder_in_order_or_first_error env emptyDescriptor
                (TemplateFile [inr myimage; inl "did not find expected key"; inr both]))
      as [_ Hbad].
    destruct (Hbad 1%nat "did not find expected key") as [Herr _]; [reflexivity | |].
    + intros j Hj. exists myimage. destruct j as [| j]; [done | lia].
    + exact Herr.
Defined.

(** C8, as stated, fails: the same error comes back whether the malformed
    document is the first or the second of its stream, so no reading of the
    error gives the ordinal of the offending document. *)
Lemma decode_error_carries_no_ordinal :
  ~ exists ordinal : Error -> nat, error_carries_ordinal env ordinal.
Proof.
  intros [ordinal Hord].
  pose proof (Hord emptyDescriptor (TemplateFile [inl "did not find expected key"])
                0%nat "did not find expected key"
                (Wrap "unable to decode resource" (ErrOther "did not find expected key"))
                eq_refl) as H0.
  pose proof (Hord emptyDescriptor
                (TemplateFile [inr myimage; inl "did not find expected key"])
                1%nat "did not find expected key"
                (Wrap "unable to decode resource" (ErrOther "did not find expected key"))
                eq_refl) as H1.
  assert (sound_before [inl "did not find expected key"] 0) as Hb0.
  { intros j Hj. lia. }
  assert (sound_before [inr myimage; inl "did not find expected key"] 1) as Hb1.
  { intros j Hj. exists myimage. destruct j as [| j]; [done | lia]. }
  specialize (H0 Hb0 eq_refl). specialize (H1 Hb1 eq_refl).
  rewrite H0 in H1. discriminate.
Qed.

Lemma first_document_kept_on_validation_failure_witness :
  Run env opts noStdin (archiveWith emptyDescriptor [inr myimage; inr both])
  = (inl (Wrap "unable to read resources from resources.yaml"
            (Errorf ("the resources " +:+ fmt_q "myconfig"
               +:+ " input and access is defind. Only one option is allowed"))),
     archiveWith emptyDescriptor [inr myimage; inr both])
  /\ Run env opts noStdin (archiveWith emptyDescriptor [inr myimage; inr untyped])
     = (inl (Aggregate ["type: Required value"]),
        (memoryfs.writeFile (archiveWith emptyDescriptor [inr myimage; inr untyped])
           descriptorPath (DescriptorFile withImage) 436).2)
  /\ Open (memoryfs.writeFile (archiveWith emptyDescriptor [inr myimage; inr untyped])
             descriptorPath (DescriptorFile withImage) 436).2 descriptorPath
     = inr (DescriptorFile withImage).
Proof.
  split_and!; [| | reflexivity].
  - destruct (first_document_kept_on_validation_failure env opts noStdin
                (archiveWith emptyDescriptor [inr myimage; inr both])
                (archiveWith emptyDescriptor [inr myimage; inr both])
                emptyDescriptor eq_refl) as [Hgen _].
    apply Hgen. reflexivity.
  - destruct (first_document_kept_on_validation_failure env opts noStdin
                (archiveWith emptyDescriptor [inr myimage; inr untyped])
                (archiveWith emptyDescriptor [inr myimage; inr untyped])
                emptyDescriptor eq_refl) as [_ Hloop].
    destruct (Hloop myimage untyped withImage
                (memoryfs.writeFile
                   (archiveWith emptyDescriptor [inr myimage; inr untyped])
                   descriptorPath (DescriptorFile withImage) 436).2
                (Aggregate ["type: Required value"])
                (withImage,
                 (memoryfs.writeFile
                    (archiveWith emptyDescriptor [inr myimage; inr untyped])
                    descriptorPath (DescriptorFile withImage) 436).2))
      as (Hrun & _ & _); [reflexivity.. |].
    exact Hrun.
Defined.

(** C1, as stated, fails: the first document is valid and the second sets
    both [access] and [input]; [Run] returns the error of the second and the
    descriptor on the file system is the one from before, without the first
    document's entry: nothing was written. *)
Lemma first_document_lost_on_conflicting_second :
  ValidateResource env (Resource_ myimage) = []
  /\ conflicting myimage = false /\ conflicting both = true
  /\ (Run env opts noStdin (archiveWith emptyDescriptor [inr myimage; inr both])).1
     = inl (Wrap "unable to read resources from resources.yaml"
              (Errorf ("the resources " +:+ fmt_q "myconfig"
                 +:+ " input and access is defind. Only one option is allowed")))
  /\ Open (Run env opts noStdin
             (archiveWith emptyDescriptor [inr myimage; inr both])).2 descriptorPath
     = inr (DescriptorFile emptyDescriptor)
  /\ Resources emptyDescriptor = []
  /\ memoryfs.journal
       (Run env opts noStdin
          (archiveWith emptyDescriptor [inr myimage; inr both])).2 = [].
Proof. split_and!; reflexivity. Qed.

Lemma persist_is_one_direct_write_witness :
  persist env descriptorPath (withImage, archiveWith emptyDescriptor [])
  = (inr tt,
     (withImage,
      (memoryfs.writeFile (archiveWith emptyDescriptor []) descriptorPath
         (DescriptorFile withImage) 436).2))
  /\ componentarchive.Run validate marshal initOpts (archiveWith emptyDescriptor [])
     = (inr tt,
        (memoryfs.writeFile (archiveWith emptyDescriptor []) descriptorPath
           (DescriptorFile freshDescriptor) 420).2).
Proof.
  destruct (persist_is_one_direct_write env) as [Hadd Hinit]. split.
  - apply (Hadd descriptorPath withImage (archiveWith emptyDescriptor [])
             (DescriptorFile withImage)); reflexivity.
  - apply (Hinit initOpts (archiveWith emptyDescriptor [])
             (archiveWith emptyDescriptor []) (DescriptorFile freshDescriptor));
      reflexivity.
Defined.

(** C2, as stated, fails: [add] and [init] replace an existing descriptor
    and the journal of the file system shows one write onto the descriptor
    file itself, no write to another path and no rename.  Nor is an
    invocation all or nothing: [add] over two documents of which the second
    is refused by the validation returns an error and has written the
    descriptor with the first. *)
Lemma descriptor_written_in_place :
  (let fs' := (Run env opts noStdin (archiveWith emptyDescriptor [inr myimage])).2 in
   Open (archiveWith emptyDescriptor [inr myimage]) descriptorPath
   = inr (DescriptorFile emptyDescriptor)
   /\ Open fs' descriptorPath = inr (DescriptorFile withImage)
   /\ memoryfs.journal fs'
      = [memoryfs.CallWriteFile descriptorPath (DescriptorFile withImage)]
   /\ ~ persisted_via_rename (memoryfs.journal fs') descriptorPath)
  /\ (let fs' := (componentarchive.Run validate marshal initOpts
                    (archiveWith emptyDescriptor [])).2 in
      Open fs' descriptorPath = inr (DescriptorFile freshDescriptor)
      /\ memoryfs.journal fs'
         = [memoryfs.CallWriteFile descriptorPath (DescriptorFile freshDescriptor)]
      /\ ~ persisted_via_rename (memoryfs.journal fs') descriptorPath)
  /\ (let out := Run env opts noStdin
                   (archiveWith emptyDescriptor [inr myimage; inr untyped]) in
      out.1 = inl (Aggregate ["type: Required value"])
      /\ Open out.2 descriptorPath = inr (DescriptorFile withImage)).
Proof.
  assert (forall c : memoryfs.Call Data, ~ persisted_via_rename [c] descriptorPath)
    as Hone.
  { intros c (tmp & data & before & after & _ & Heq).
    apply (f_equal length) in Heq. rewrite length_app in Heq.
    simpl in Heq. lia. }
  split_and!; simpl; split_and!; try reflexivity; apply Hone.
Qed.

Lemma init_overwrites_existing_descriptor_witness :
  Open (archiveWith emptyDescriptor []) descriptorPath
  = inr (DescriptorFile emptyDescriptor)
  /\ componentarchive.Run validate marshal initOpts (archiveWith emptyDescriptor [])
     = (inr tt,
        (memoryfs.writeFile (archiveWith emptyDescriptor []) descriptorPath
           (DescriptorFile freshDescriptor) 420).2)
  /\ Open (memoryfs.writeFile (archiveWith emptyDescriptor []) descriptorPath
             (DescriptorFile freshDescriptor) 420).2 descriptorPath
     = inr (DescriptorFile freshDescriptor).
Proof.
  split_and!; [reflexivity | | reflexivity].
  destruct (init_overwrites_existing_descriptor env initOpts
              (archiveWith emptyDescriptor [])
              (memoryfs.writeFile (archiveWith emptyDescriptor []) descriptorPath
                 (DescriptorFile freshDescriptor) 420).2
              (DescriptorFile freshDescriptor))
    as [Hrun _]; [reflexivity.. |].
  exact Hrun.
Defined.


(** * Further properties of the commands *)

(** ** Where the templates come from *)

Section Origins.
Context {FS Data : Type} `{!FileSystem FS Data}.
Variable env : Env FS Data.

(** X1. Without a template file and without piped input there is nothing to
    add: [Run] returns no error and the file system is as [Build] left it;
    with piped input alone the templates are the piped ones. *)
Theorem add_without_templates (o : Options) (stdin : os_Stdin Data)
    (fs fs1 : FS) (cd : ComponentDescriptor) (info : StdinInfo) :
  ResourceObjectPath o = EmptyString ->
  StdinStat stdin = inr info ->
  Build env (BuilderOptions_ o) fs = (inr cd, fs1) ->
  (ModeNamedPipe info = false -> StdinSize info = 0 ->
   generateResources env o stdin cd fs1 = (inr [], fs1)
   /\ Run env o stdin fs = (inr tt, fs1))
  /\ (ModeNamedPipe info = true \/ StdinSize info ≠ 0 ->
      forall stdinRs : list ResourceOptions,
        generateResourcesFromReader env cd (StdinReader stdin) = inr stdinRs ->
        generateResources env o stdin cd fs1 = (inr stdinRs, fs1)).
Proof.
  intros Hpath Hstat Hb.
  assert (resourcesFromPath env o cd fs1 = (inr [], fs1)) as Hfrom.
  { unfold resourcesFromPath. by case_decide. }
  split.
  - intros Hmode Hsize.
    assert (generateResources env o stdin cd fs1 = (inr [], fs1)) as Hgen.
    { unfold generateResources, bind, wrapping, attempt, ret. rewrite Hfrom. simpl.
      rewrite Hstat. simpl. by rewrite Hmode, Hsize. }
    split; [done |]. by rewrite Run_eq, Hb, Hgen.
  - intros Hpipe stdinRs Hin.
    unfold generateResources, bind, wrapping, attempt, ret. rewrite Hfrom. simpl.
    rewrite Hstat. simpl.
    assert (ModeNamedPipe info || negb (StdinSize info =? 0) = true) as ->.
    { destruct Hpipe as [-> | Hsize]; [done |].
      apply orb_true_iff. right. apply negb_true_iff. by apply Z.eqb_neq. }
    by rewrite Hin.
Qed.

(** X2. A template file that cannot be opened ends the command before
    [os.Stdin] is looked at: whatever the standard input is, [Run] returns
    the error of [Open] under [unable to read resource object from] and the
    file system is as [Build] left it. *)
Theorem unreadable_template_file (o : Options) (stdin : os_Stdin Data)
    (fs fs1 : FS) (cd : ComponentDescriptor) (err : Error) :
  ResourceObjectPath o ≠ EmptyString ->
  Build env (BuilderOptions_ o) fs = (inr cd, fs1) ->
  Open fs1 (ResourceObjectPath o) = inl err ->
  Run env o stdin fs
  = (inl (Wrap ("unable to read resource object from " +:+ ResourceObjectPath o) err),
     fs1).
Proof.
  intros Hpath Hb Hopen.
  apply (Run_generate_error env o stdin fs fs1 cd); [done |].
  unfold generateResources, resourcesFromPath, bind, wrapping, attempt.
  case_decide; [| done]. simpl. by rewrite Hopen.
Qed.

(** X3. [os.Stdin] is examined on every invocation: when its [Stat] fails the
    command fails with [unable to read from stdin], also when a template
    file was given and all of its documents were decoded; nothing is merged
    or written. *)
Theorem stdin_stat_failure_discards_file (o : Options) (stdin : os_Stdin Data)
    (fs fs1 : FS) (cd : ComponentDescriptor) (fileRs : list ResourceOptions)
    (err : Error) :
  Build env (BuilderOptions_ o) fs = (inr cd, fs1) ->
  resourcesFromPath env o cd fs1 = (inr fileRs, fs1) ->
  StdinStat stdin = inl err ->
  Run env o stdin fs = (inl (Wrap "unable to read from stdin" err), fs1).
Proof.
  intros Hb Hfrom Hstat.
  apply (Run_generate_error env o stdin fs fs1 cd); [done |].
  unfold generateResources, bind, wrapping, attempt. rewrite Hfrom. simpl.
  by rewrite Hstat.
Qed.

End Origins.

Lemma add_without_templates_witness :
  Run env optsNoFile noStdin (archiveWith emptyDescriptor [inr myimage])
  = (inr tt, archiveWith emptyDescriptor [inr myimage])
  /\ generateResources env optsNoFile (pipedStdin [inr myimage]) emptyDescriptor
       (archiveWith emptyDescriptor [])
     = (inr [myimage], archiveWith emptyDescriptor []).
Proof.
  split.
  - destruct (add_without_templates env optsNoFile noStdin
                (archiveWith emptyDescriptor [inr myimage])
                (archiveWith emptyDescriptor [inr myimage]) emptyDescriptor
                {| ModeNamedPipe := false; StdinSize := 0 |})
      as [Hnone _]; [reflexivity.. |].
    by destruct (Hnone eq_refl eq_refl).
  - destruct (add_without_templates env optsNoFile (pipedStdin [inr myimage])
                (archiveWith emptyDescriptor [])
                (archiveWith emptyDescriptor []) emptyDescriptor
                {| ModeNamedPipe := true; StdinSize := 0 |})
      as [_ Hpiped]; [reflexivity.. |].
    apply Hpiped; [by left | reflexivity].
Defined.

Lemma unreadable_template_file_witness :
  Run env optsMissingFile (pipedStdin [inr myimage]) (archiveWith emptyDescriptor [])
  = (inl (Wrap "unable to read resource object from missing.yaml"
            (ErrNotExist "missing.yaml")),
     archiveWith emptyDescriptor []).
Proof.
  apply (unreadable_template_file env optsMissingFile (pipedStdin [inr myimage])
           (archiveWith emptyDescriptor []) (archiveWith emptyDescriptor [])
           emptyDescriptor);
    [done | reflexivity | reflexivity].
Defined.

Lemma stdin_stat_failure_discards_file_witness :
  Run env opts closedStdin (archiveWith emptyDescriptor [inr myimage])
  = (inl (Wrap "unable to read from stdin" (ErrOther "bad file descriptor")),
     archiveWith emptyDescriptor [inr myimage]).
Proof.
  apply (stdin_stat_failure_discards_file env opts closedStdin
           (archiveWith emptyDescriptor [inr myimage])
           (archiveWith emptyDescriptor [inr myimage]) emptyDescriptor [myimage]);
    reflexivity.
Defined.

(** ** The loop of [Run] *)

Section Loop.
Context {FS Data : Type} `{!FileSystem FS Data}.
Variable env : Env FS Data.

(** X4. The loop returns at the first template that fails: the templates after
    it are not looked at, whatever they are. *)
Theorem loop_stops_at_first_failure (o : Options)
    (done_ rest : list ResourceOptions) (t : ResourceOptions)
    (st st1 st2 : ComponentDescriptor * FS) (err : Error) :
  runLoop env o done_ st = (inr tt, st1) ->
  addResource env o (resources.compDescFilePath o) t st1 = (inl err, st2) ->
  runLoop env o (done_ ++ t :: rest) st = (inl err, st2).
Proof.
  intros Hdone Hfail. by rewrite runLoop_app, Hdone, runLoop_cons, Hfail.
Qed.

(** X5. A merge-path template that the validation of resources refuses, be it
    new or merged over an existing entry, changes neither the descriptor
    nor the file system; the error is the aggregate of the field errors.
    One that is accepted but yields a descriptor that [Validate] refuses is
    reported under [invalid resource] and the file system is not touched. *)
Theorem refused_template_writes_nothing (o : Options) (path : string)
    (t : ResourceOptions) (cd : ComponentDescriptor) (fs : FS) :
  Input t = None ->
  let candidate :=
    match list_find (fun cur => sameIdentity cur (Resource_ t)) (Resources cd) with
    | Some (_, e) => cdutils.MergeResources e (Resource_ t)
    | None => Resource_ t
    end in
  (ValidateResource env candidate ≠ [] ->
   addResource env o path t (cd, fs)
   = (inl (Aggregate (ValidateResource env candidate)), (cd, fs)))
  /\ (forall (cd' : ComponentDescriptor) (err : Error),
        upsert env (Resource_ t) (cd, fs) = (inr tt, (cd', fs)) ->
        Validate env cd' = Some err ->
        addResource env o path t (cd, fs)
        = (inl (Wrap "invalid resource" err), (cd', fs))).
Proof.
  intros Hin candidate. split.
  - intros Hrefused. rewrite addResource_merge, upsert_eq by done.
    subst candidate.
    destruct (list_find _ _) as [[i e] |];
      by destruct (ValidateResource env _).
  - intros cd' err Hup Hv.
    rewrite addResource_merge, Hup by done.
    by rewrite persist_eq, encode_eq, Hv.
Qed.

(** X6. Over merge-path templates the loop changes the resources of the
    descriptor and nothing else: name, version, provider, repository
    contexts, sources and component references stay as loaded. *)
Theorem loop_touches_resources_only (o : Options) (ts : list ResourceOptions)
    (st : ComponentDescriptor * FS) :
  Forall (fun t => Input t = None) ts ->
  (runLoop env o ts st).2.1
  = set_Resources (Resources (runLoop env o ts st).2.1) st.1.
Proof.
  intros Hts. revert st.
  induction Hts as [| t ts Ht _ IH]; intros st.
  - simpl. by rewrite set_Resources_same.
  - rewrite runLoop_cons, addResource_merge by done.
    assert ((upsert env (Resource_ t) st).2.1
            = set_Resources (Resources (upsert env (Resource_ t) st).2.1) st.1) as Hup.
    { destruct st as [cd fs]. rewrite upsert_eq.
      destruct (list_find _ _) as [[i e] |];
        destruct (ValidateResource env _); simpl; by rewrite ?set_Resources_same. }
    destruct (upsert env (Resource_ t) st) as [[err | u] st1]; [done |].
    pose proof (persist_descriptor env (resources.compDescFilePath o) st1) as Hp.
    destruct (persist env _ st1) as [[err | u'] st2]; simpl in *.
    + by rewrite Hp.
    + rewrite IH. rewrite Hp, Hup. done.
Qed.

(** X7. Over merge-path templates no entry is dropped or moved: the identities
    of the resources before the loop are, in the same order, the first
    identities after it; what is new comes after them. *)
Theorem loop_keeps_existing_identities (o : Options) (ts : list ResourceOptions)
    (st : ComponentDescriptor * FS) :
  Forall (fun t => Input t = None) ts ->
  (GetIdentity <$> Resources st.1)
    `prefix_of` (GetIdentity <$> Resources (runLoop env o ts st).2.1).
Proof.
  intros Hts. revert st.
  induction Hts as [| t ts Ht _ IH]; intros st; [done |].
  rewrite runLoop_cons, addResource_merge by done.
  assert ((GetIdentity <$> Resources st.1)
            `prefix_of` (GetIdentity <$> Resources (upsert env (Resource_ t) st).2.1))
    as Hup.
  { destruct st as [cd fs]. rewrite upsert_eq.
    destruct (list_find _ _) as [[i e] |] eqn:Hfind.
    - apply list_find_Some in Hfind as (Hi & He & _).
      destruct (ValidateResource env _); [| done]. simpl.
      rewrite list_fmap_insert, GetIdentity_MergeResources.
      rewrite list_insert_id; [done |].
      rewrite list_lookup_fmap, Hi. simpl. by f_equal.
    - destruct (ValidateResource env _); [| done]. simpl.
      rewrite fmap_app. by apply prefix_app_r. }
  destruct (upsert env (Resource_ t) st) as [[err | u] st1]; [done |].
  pose proof (persist_descriptor env (resources.compDescFilePath o) st1) as Hp.
  destruct (persist env _ st1) as [[err | u'] st2]; simpl in *.
  - by rewrite Hp.
  - etrans; [exact Hup |]. rewrite <- Hp. apply IH.
Qed.

(** X8. What the loop does to the file system, over merge-path templates: it
    is a chain of [WriteFile] calls on the descriptor file, each with the
    serialization of a descriptor that [Validate] accepted, at most one per
    template.  When the loop returns no error there is exactly one per
    template, and the last one written is the descriptor held at the end. *)
Theorem loop_writes_validated_descriptors (o : Options)
    (ts : list ResourceOptions) (st st' : ComponentDescriptor * FS)
    (r : Error + unit) :
  Forall (fun t => Input t = None) ts ->
  runLoop env o ts st = (r, st') ->
  exists writes : list (ComponentDescriptor * Data),
    st'.2 = fold_left
              (fun fs w => (WriteFile fs (resources.compDescFilePath o) w.2 436).2)
              writes st.2
    /\ Forall (fun w => Validate env w.1 = None /\ Marshal env w.1 = inr w.2) writes
    /\ (length writes <= length ts)%nat
    /\ (r = inr tt ->
        length writes = length ts
        /\ (ts ≠ [] -> exists data, last writes = Some (st'.1, data))).
Proof.
  intros Hts. revert st.
  induction Hts as [| t ts Ht _ IH]; intros st.
  - intros [= <- <-]. exists []. split_and!; [done | constructor | done |].
    by intros _.
  - rewrite runLoop_cons, addResource_merge by done.
    destruct st as [cd fs].
    pose proof (upsert_fs env (Resource_ t) cd fs) as Hfs.
    destruct (upsert env (Resource_ t) (cd, fs)) as [[err | u] [cd1 fs1]];
      simpl in Hfs; subst fs1.
    { intros [= <- <-]. exists []. split_and!; [done | constructor | simpl; lia |].
      discriminate. }
    rewrite persist_eq, encode_eq.
    destruct (Validate env cd1) eqn:Hv.
    { intros [= <- <-]. exists []. split_and!; [done | constructor | simpl; lia |].
      discriminate. }
    destruct (Marshal env cd1) as [err | data] eqn:Hm.
    { intros [= <- <-]. exists []. split_and!; [done | constructor | simpl; lia |].
      discriminate. }
    destruct (WriteFile fs (resources.compDescFilePath o) data 436)
      as [[err |] fs2] eqn:Hw; simpl.
    { intros [= <- <-]. exists [(cd1, data)]. simpl. rewrite Hw.
      split_and!; [done | by repeat constructor | lia | discriminate]. }
    intros Hrest. destruct (IH _ Hrest) as (writes & Hfold & Hvalid & Hlen & Hok).
    exists ((cd1, data) :: writes). simpl. rewrite Hw. simpl.
    split_and!; [done | by constructor | lia |].
    intros Hr. destruct (Hok Hr) as [Hlen' Hlast]. split; [lia |].
    intros _. destruct ts as [| t' ts'].
    + destruct writes; [| done]. simpl in Hrest.
      injection Hrest as _ <-. by exists data.
    + destruct Hlast as [data' Hlast]; [done |].
      exists data'. rewrite last_cons, Hlast. done.
Qed.

End Loop.

Lemma loop_stops_at_first_failure_witness :
  runLoop env opts ([myimage] ++ untyped :: [localNoVersion; both])
    (emptyDescriptor, archiveWith emptyDescriptor [])
  = (inl (Aggregate ["type: Required value"]),
     (withImage,
      (memoryfs.writeFile (archiveWith emptyDescriptor []) descriptorPath
         (DescriptorFile withImage) 436).2)).
Proof.
  apply (loop_stops_at_first_failure env opts [myimage] [localNoVersion; both]
           untyped (emptyDescriptor, archiveWith emptyDescriptor [])
           (withImage,
            (memoryfs.writeFile (archiveWith emptyDescriptor []) descriptorPath
               (DescriptorFile withImage) 436).2));
    reflexivity.
Defined.

Lemma refused_template_writes_nothing_witness :
  addResource env opts descriptorPath untyped
    (withImage, archiveWith withImage [])
  = (inl (Aggregate ["type: Required value"]), (withImage, archiveWith withImage []))
  /\ addResource (FS := memoryfs.t Data)
       {| ValidateResource := validateResource; Validate := refuseAll;
          Marshal := marshal; NewYAMLOrJSONDecoder := decoder; Build := build;
          InputRead := inputRead; AddResource := addBlobResource |}
       opts descriptorPath myimage
       (emptyDescriptor, archiveWith emptyDescriptor [])
     = (inl (Wrap "invalid resource" (ErrOther "component.name: Invalid value")),
        (withImage, archiveWith emptyDescriptor [])).
Proof.
  split.
  - destruct (refused_template_writes_nothing env opts descriptorPath untyped
                withImage (archiveWith withImage []) eq_refl) as [Hrefused _].
    apply Hrefused. discriminate.
  - destruct (refused_template_writes_nothing
                {| ValidateResource := validateResource; Validate := refuseAll;
                   Marshal := marshal; NewYAMLOrJSONDecoder := decoder;
                   Build := build; InputRead := inputRead;
                   AddResource := addBlobResource |}
                opts descriptorPath myimage
                emptyDescriptor (archiveWith emptyDescriptor []) eq_refl)
      as [_ Hinvalid].
    apply Hinvalid; reflexivity.
Defined.

Lemma loop_touches_resources_only_witness :
  (runLoop env opts [myimage; localNoVersion]
     (emptyDescriptor, archiveWith emptyDescriptor [])).2.1
  = set_Resources
      (Resources (runLoop env opts [myimage; localNoVersion]
                    (emptyDescriptor, archiveWith emptyDescriptor [])).2.1)
      emptyDescriptor.
Proof.
  apply (loop_touches_resources_only env opts [myimage; localNoVersion]
           (emptyDescriptor, archiveWith emptyDescriptor [])).
  by repeat constructor.
Defined.

Lemma loop_keeps_existing_identities_witness :
  (GetIdentity <$> Resources withImage)
    `prefix_of`
  (GetIdentity <$> Resources
     (runLoop env opts
        [{| Resource_ := newAccess; Input := None |};
         {| Resource_ := Resource_ (set_ResourceVersion "1.0.0" localNoVersion);
            Input := None |}]
        (withImage, archiveWith withImage [])).2.1).
Proof.
  apply (loop_keeps_existing_identities env opts _
           (withImage, archiveWith withImage [])).
  by repeat constructor.
Defined.

Lemma loop_writes_validated_descriptors_witness :
  exists writes : list (ComponentDescriptor * Data),
    (runLoop env opts [myimage; untyped]
       (emptyDescriptor, archiveWith emptyDescriptor [])).2.2
    = fold_left (fun fs w => (WriteFile fs descriptorPath w.2 436).2) writes
        (archiveWith emptyDescriptor [])
    /\ Forall (fun w => validate w.1 = None /\ marshal w.1 = inr w.2) writes
    /\ (length writes <= 2)%nat.
Proof.
  destruct (loop_writes_validated_descriptors env opts [myimage; untyped]
              (emptyDescriptor, archiveWith emptyDescriptor [])
              (runLoop env opts [myimage; untyped]
                 (emptyDescriptor, archiveWith emptyDescriptor [])).2
              (runLoop env opts [myimage; untyped]
                 (emptyDescriptor, archiveWith emptyDescriptor [])).1)
    as (writes & Hfold & Hvalid & Hlen & _).
  - by repeat constructor.
  - by destruct (runLoop env opts [myimage; untyped]
                   (emptyDescriptor, archiveWith emptyDescriptor [])).
  - exists writes. split_and!; [exact Hfold | exact Hvalid | exact Hlen].
Defined.

(** ** Resources with an input *)

Section InputBlob.
Context {FS Data : Type} `{!FileSystem FS Data}.
Variable env : Env FS Data.

(** X9. The three ways in which a resource with an input can fail, as the
    loop of [Run] sees them; in none of them is the descriptor validated or
    written.  An input that cannot be read is reported as it is and the
    archive is not touched.  A blob that the archive refuses is reported
    under [unable to add input blob to archive].  A reader that fails to
    close after the archive took the blob is reported under [unable to close
    input file], with the archive and the file system as [AddResource] left
    them.  The blob is announced with the resource's type as media type and
    the digest and size that the input reader computed. *)
Theorem input_blob_failures (o : Options) (path : string)
    (t : ResourceOptions) (inp : input.BlobInput)
    (st : ComponentDescriptor * FS) :
  Input t = Some inp ->
  (forall err : Error,
     InputRead env inp st.2 (ResourceObjectPath o) = inl err ->
     addResource env o path t st = (inl err, st))
  /\ (forall (blob : input.BlobOutput),
        InputRead env inp st.2 (ResourceObjectPath o) = inr blob ->
        let added :=
          AddResource env (Resource_ t)
            {| ctf.MediaType := Type_ (Resource_ t);
               ctf.Digest := input.BlobDigest blob;
               ctf.Size := input.BlobSize blob |}
            (input.BlobReader blob) st in
        (forall err, added.1 = inl err ->
           addResource env o path t st
           = (inl (Wrap "unable to add input blob to archive" err), added.2))
        /\ (forall err, added.1 = inr tt -> input.BlobClose blob = Some err ->
              addResource env o path t st
              = (inl (Wrap "unable to close input file" err), added.2))
        /\ (added.1 = inr tt -> input.BlobClose blob = None ->
            addResource env o path t st = persist env path added.2)).
Proof.
  intros Hin. split.
  - intros err Hread.
    unfold addResource, bind, addInputBlob, attempt. rewrite Hin.
    unfold bind. by rewrite Hread.
  - intros blob Hread added.
    assert (addResource env o path t st =
            match added with
            | (inl err, st') =>
                (inl (Wrap "unable to add input blob to archive" err), st')
            | (inr _, st') =>
                match input.BlobClose blob with
                | Some err => (inl (Wrap "unable to close input file" err), st')
                | None => persist env path st'
                end
            end) as ->.
    { unfold addResource, bind, addInputBlob, attempt, wrapping. rewrite Hin.
      unfold bind. rewrite Hread. fold added.
      destruct added as [[err | u] st']; [done |].
      by destruct (input.BlobClose blob). }
    destruct added as [[err | u] st']; simpl.
    + split_and!; [by intros ? [= ->] | discriminate | discriminate].
    + split_and!; [discriminate | by intros ? _ -> | by intros _ ->].
Qed.

End InputBlob.

Lemma input_blob_failures_witness :
  addResource env opts descriptorPath myconfig
    (emptyDescriptor, archiveWith emptyDescriptor [])
  = (inl (ErrNotExist "some/path"), (emptyDescriptor, archiveWith emptyDescriptor []))
  /\ addResource envNoBlobs opts descriptorPath myconfig
       (emptyDescriptor, archiveWithInput emptyDescriptor)
     = (inl (Wrap "unable to add input blob to archive"
               (ErrOther "unable to write blob")),
        (emptyDescriptor, archiveWithInput emptyDescriptor))
  /\ (addResource envBadClose opts descriptorPath myconfig
        (emptyDescriptor, archiveWithInput emptyDescriptor)).1
     = inl (Wrap "unable to close input file" (ErrOther "file already closed"))
  /\ memoryfs.journal
       (addResource envBadClose opts descriptorPath myconfig
          (emptyDescriptor, archiveWithInput emptyDescriptor)).2.2 = []
  /\ (addResource env opts descriptorPath myconfig
        (emptyDescriptor, archiveWithInput emptyDescriptor)).1 = inr tt.
Proof.
  split_and!.
  - destruct (input_blob_failures env opts descriptorPath myconfig fileInput
                (emptyDescriptor, archiveWith emptyDescriptor []) eq_refl)
      as [Hread _].
    apply Hread. reflexivity.
  - destruct (input_blob_failures envNoBlobs opts descriptorPath myconfig fileInput
                (emptyDescriptor, archiveWithInput emptyDescriptor) eq_refl)
      as [_ Hblob].
    destruct (Hblob _ eq_refl) as (Hadd & _ & _).
    apply Hadd. reflexivity.
  - destruct (input_blob_failures envBadClose opts descriptorPath myconfig fileInput
                (emptyDescriptor, archiveWithInput emptyDescriptor) eq_refl)
      as [_ Hblob].
    destruct (Hblob _ eq_refl) as (_ & Hclose & _).
    rewrite (Hclose (ErrOther "file already closed")); reflexivity.
  - reflexivity.
  - destruct (input_blob_failures env opts descriptorPath myconfig fileInput
                (emptyDescriptor, archiveWithInput emptyDescriptor) eq_refl)
      as [_ Hblob].
    destruct (Hblob _ eq_refl) as (_ & _ & Hok).
    rewrite Hok; reflexivity.
Defined.

(** ** What the generation does to a template *)

Section Generation.
Context {FS Data : Type} `{!FileSystem FS Data}.
Variable env : Env FS Data.

(** X10. The generation returns as many templates as the reader has documents,
    each at the position of its document and equal to it but for the
    version: [input], [access] and every other field are as decoded.  A
    template that is not local, or that has a version, is returned as it
    is; and when the component descriptor has a version no local template
    is left without one. *)
Theorem generation_changes_version_only (cd : ComponentDescriptor)
    (reader : Data) (rs : list ResourceOptions) :
  generateResourcesFromReader env cd reader = inr rs ->
  length rs = length (NewYAMLOrJSONDecoder env reader)
  /\ forall (i : nat) (t : ResourceOptions),
       NewYAMLOrJSONDecoder env reader !! i = Some (inr t) ->
       exists r : ResourceOptions,
         rs !! i = Some r
         /\ Input r = Input t
         /\ Resource_ r = set_Version (Version (Resource_ r)) (Resource_ t)
         /\ (Relation (Resource_ t) ≠ LocalRelation
             \/ Version (Resource_ t) ≠ EmptyString -> r = t)
         /\ (GetVersion cd ≠ EmptyString ->
             Relation (Resource_ r) = LocalRelation ->
             Version (Resource_ r) ≠ EmptyString).
Proof.
  intros (ts & Hdec & _ & ->)%decodeLoop_inr. simpl.
  rewrite Hdec, !length_fmap. split; [done |].
  intros i t Hi. rewrite list_lookup_fmap in Hi.
  destruct (ts !! i) as [t' |] eqn:Hti; [| done].
  injection Hi as ->.
  rewrite list_lookup_fmap, Hti. simpl.
  destruct (decide (Relation (Resource_ t) = LocalRelation
                    /\ Version (Resource_ t) = EmptyString)) as [[Hrel Hver] | Hn].
  - rewrite Version_defaultVersion_local by done.
    exists (set_ResourceVersion (GetVersion cd) t). split_and!; [done.. | |].
    + intros [? | ?]; tauto.
    + done.
  - assert (defaultVersion cd t = t) as ->.
    { unfold defaultVersion. by rewrite decide_False. }
    exists t. split_and!; [done | done | by destruct t as [[] ?] | done |].
    intros _ Hrel Hver. tauto.
Qed.

End Generation.

Lemma generation_changes_version_only_witness :
  length [myimage; set_ResourceVersion "1.0.0" localNoVersion]
  = length (decoder (TemplateFile [inr myimage; inr localNoVersion]))
  /\ exists r : ResourceOptions,
       [myimage; set_ResourceVersion "1.0.0" localNoVersion] !! 1%nat = Some r
       /\ Input r = None
       /\ Version (Resource_ r) ≠ EmptyString.
Proof.
  destruct (generation_changes_version_only env emptyDescriptor
              (TemplateFile [inr myimage; inr localNoVersion])
              [myimage; set_ResourceVersion "1.0.0" localNoVersion] eq_refl)
    as [Hlen Hat].
  split; [exact Hlen |].
  destruct (Hat 1%nat localNoVersion eq_refl) as (r & Hr & Hin & _ & _ & Hver).
  exists r. split_and!; [exact Hr | exact Hin |].
  apply Hver; [discriminate |].
  injection Hr as <-. reflexivity.
Defined.

(** ** [init]: the directory, the descriptor and the options *)

Lemma String_length_zero (s : string) : String.length s = 0%nat <-> s = EmptyString.
Proof. by destruct s. Qed.

Section InitFailures.
Context {FS Data : Type} `{!FileSystem FS Data}.
Variable Validate : ComponentDescriptor -> option Error.
Variable Marshal : ComponentDescriptor -> Error + Data.

(** X11. A path that exists and is not a directory, or that cannot be
    examined, ends [init] before anything is created or written: the file
    system is the one it was given. *)
Theorem init_refuses_non_directory (o : componentarchive.InitOptions) (fs : FS) :
  (Stat fs (componentarchive.ComponentArchivePath o) = inr {| IsDir := false |} ->
   componentarchive.Run Validate Marshal o fs
   = (inl (Errorf (fmt_q (componentarchive.ComponentArchivePath o)
                   +:+ " is not a directory")), fs))
  /\ (forall err : Error,
        Stat fs (componentarchive.ComponentArchivePath o) = inl err ->
        os_IsNotExist err = false ->
        componentarchive.Run Validate Marshal o fs
        = (inl (Wrap ("unable to read "
                      +:+ fmt_q (componentarchive.ComponentArchivePath o)) err), fs)).
Proof.
  split.
  - intros Hstat.
    unfold componentarchive.Run, bind, componentarchive.ensureDirectory.
    by rewrite Hstat.
  - intros err Hstat Hnot.
    unfold componentarchive.Run, bind, componentarchive.ensureDirectory.
    by rewrite Hstat, Hnot.
Qed.

(** X12. A path that does not exist is created with [MkdirAll] before the
    descriptor is built.  When the creation fails, the error names the path
    and drops the cause.  When it goes through, [init] goes on from the
    file system that [MkdirAll] left, and writes the descriptor there. *)
Theorem init_creates_missing_directory (o : componentarchive.InitOptions)
    (fs fs1 : FS) (err : Error) (made : option Error) :
  Stat fs (componentarchive.ComponentArchivePath o) = inl err ->
  os_IsNotExist err = true ->
  MkdirAll fs (componentarchive.ComponentArchivePath o) componentarchive.os_ModeDir
  = (made, fs1) ->
  (forall cause : Error, made = Some cause ->
     componentarchive.Run Validate Marshal o fs
     = (inl (Errorf ("unable to mkdir "
                     +:+ fmt_q (componentarchive.ComponentArchivePath o))), fs1))
  /\ (made = None ->
      forall (data : Data) (fs2 : FS),
        Validate (componentarchive.addRegistryContexts
                    (componentarchive.OCIRegistryURLs o)
                    (componentarchive.baseDescriptor o)) = None ->
        Marshal (componentarchive.addRegistryContexts
                   (componentarchive.OCIRegistryURLs o)
                   (componentarchive.baseDescriptor o)) = inr data ->
        WriteFile fs1 (componentarchive.compDescFilePath o) data 420 = (None, fs2) ->
        componentarchive.Run Validate Marshal o fs = (inr tt, fs2)).
Proof.
  intros Hstat Hnot Hmk. split.
  - intros cause ->.
    unfold componentarchive.Run, bind, componentarchive.ensureDirectory.
    by rewrite Hstat, Hnot, Hmk.
  - intros -> data fs2 Hv Hm Hw.
    unfold componentarchive.Run, bind, componentarchive.ensureDirectory.
    rewrite Hstat, Hnot, Hmk.
    unfold wrapping, attempt, DefaultComponent, throw, ret; simpl.
    by rewrite Hv, Hm, Hw.
Qed.

(** X13. The descriptor is validated and serialized before it is written: when
    either fails, [init] returns that error, wrapped, and the file system is
    the one the directory check left, so a directory that [init] had to
    create stays behind without a descriptor. *)
Theorem init_validation_failure_writes_nothing
    (o : componentarchive.InitOptions) (fs fs0 : FS) :
  componentarchive.ensureDirectory o fs = (inr tt, fs0) ->
  let cd := componentarchive.addRegistryContexts
              (componentarchive.OCIRegistryURLs o)
              (componentarchive.baseDescriptor o) in
  (forall err : Error, Validate cd = Some err ->
     componentarchive.Run Validate Marshal o fs
     = (inl (Wrap "invalid resource" err), fs0))
  /\ (forall err : Error, Validate cd = None -> Marshal cd = inl err ->
        componentarchive.Run Validate Marshal o fs
        = (inl (Wrap "unable to encode component descriptor" err), fs0)).
Proof.
  intros Hdir cd. split.
  - intros err Hv. unfold componentarchive.Run, bind. rewrite Hdir.
    unfold wrapping, attempt, DefaultComponent, throw, ret; simpl.
    fold cd. by rewrite Hv.
  - intros err Hv Hm. unfold componentarchive.Run, bind. rewrite Hdir.
    unfold wrapping, attempt, DefaultComponent, throw, ret; simpl.
    fold cd. by rewrite Hv, Hm.
Qed.

End InitFailures.

Lemma init_refuses_non_directory_witness :
  componentarchive.Run validate marshal initOnFile (archiveWith emptyDescriptor [])
  = (inl (Errorf (fmt_q "resources.yaml" +:+ " is not a directory")),
     archiveWith emptyDescriptor []).
Proof.
  destruct (init_refuses_non_directory validate marshal initOnFile
              (archiveWith emptyDescriptor [])) as [Hfile _].
  apply Hfile. reflexivity.
Defined.

Lemma init_creates_missing_directory_witness :
  componentarchive.Run validate marshal initNew (archiveWith emptyDescriptor [])
  = (inr tt,
     (memoryfs.writeFile
        (memoryfs.mkdirAll (archiveWith emptyDescriptor []) "new"
           componentarchive.os_ModeDir).2
        "new/component-descriptor.yaml" (DescriptorFile freshDescriptor) 420).2)
  /\ Stat (componentarchive.Run validate marshal initNew
             (archiveWith emptyDescriptor [])).2 "new" = inr {| IsDir := true |}.
Proof.
  split; [| reflexivity].
  destruct (init_creates_missing_directory validate marshal initNew
              (archiveWith emptyDescriptor [])
              (memoryfs.mkdirAll (archiveWith emptyDescriptor []) "new"
                 componentarchive.os_ModeDir).2
              (ErrNotExist "new") None) as [_ Hmade]; [reflexivity.. |].
  apply (Hmade eq_refl (DescriptorFile freshDescriptor)); reflexivity.
Defined.

Lemma init_validation_failure_writes_nothing_witness :
  componentarchive.Run refuseAll marshal initNew (archiveWith emptyDescriptor [])
  = (inl (Wrap "invalid resource" (ErrOther "component.name: Invalid value")),
     (memoryfs.mkdirAll (archiveWith emptyDescriptor []) "new"
        componentarchive.os_ModeDir).2)
  /\ Open (componentarchive.Run refuseAll marshal initNew
             (archiveWith emptyDescriptor [])).2 "new/component-descriptor.yaml"
     = inl (ErrNotExist "new/component-descriptor.yaml")
  /\ Stat (componentarchive.Run refuseAll marshal initNew
             (archiveWith emptyDescriptor [])).2 "new" = inr {| IsDir := true |}.
Proof.
  split_and!; [| reflexivity | reflexivity].
  destruct (init_validation_failure_writes_nothing refuseAll marshal initNew
              (archiveWith emptyDescriptor [])
              (memoryfs.mkdirAll (archiveWith emptyDescriptor []) "new"
                 componentarchive.os_ModeDir).2) as [Hinvalid _]; [reflexivity |].
  apply Hinvalid. reflexivity.
Defined.

(** *** The registry contexts *)

Lemma NoDup_AddRepositoryContext (rcs : list RepositoryContext) (type url : string) :
  NoDup rcs -> NoDup (utils.AddRepositoryContext rcs type url).
Proof.
  intros Hnd. unfold utils.AddRepositoryContext. case_decide as Hin; [done |].
  apply NoDup_app. split_and!; [done | | apply NoDup_singleton].
  by intros x Hx ->%list_elem_of_singleton.
Qed.

Lemma fold_AddRepositoryContext_fresh (urls : list string)
    (rcs : list RepositoryContext) :
  NoDup urls ->
  (forall url, url ∈ urls -> componentarchive.ociContext url ∉ rcs) ->
  fold_left (fun rcs url => utils.AddRepositoryContext rcs OCIRegistryType url) urls rcs
  = rcs ++ (componentarchive.ociContext <$> urls).
Proof.
  revert rcs. induction urls as [| url urls IH]; intros rcs Hnd Hfresh; simpl.
  - by rewrite app_nil_r.
  - apply NoDup_cons in Hnd as [Hurl Hnd].
    assert (utils.AddRepositoryContext rcs OCIRegistryType url
            = rcs ++ [componentarchive.ociContext url]) as ->.
    { unfold utils.AddRepositoryContext. rewrite decide_False; [done |].
      apply Hfresh, list_elem_of_here. }
    rewrite IH; [by rewrite <- app_assoc | done |].
    intros u Hu [Hin | Hin%list_elem_of_singleton]%elem_of_app.
    + by apply (Hfresh u); [apply list_elem_of_further |].
    + injection Hin as ->. done.
Qed.

(** X14. The registry contexts of the descriptor that [init] builds hold no
    context twice, however often a URL is given, and never more contexts
    than URLs; URLs that are all different give their contexts in the order
    of the URLs. *)
Theorem init_registry_contexts (o : componentarchive.InitOptions) :
  let cd := componentarchive.addRegistryContexts
              (componentarchive.OCIRegistryURLs o)
              (componentarchive.baseDescriptor o) in
  NoDup (RepositoryContexts cd)
  /\ (length (RepositoryContexts cd)
      <= length (componentarchive.OCIRegistryURLs o))%nat
  /\ (NoDup (componentarchive.OCIRegistryURLs o) ->
      RepositoryContexts cd = componentarchive.ociContext <$> componentarchive.OCIRegistryURLs o).
Proof.
  intros cd. subst cd. rewrite addRegistryContexts_eq. simpl.
  assert (forall (urls : list string) (rcs : list RepositoryContext),
            NoDup rcs ->
            NoDup (fold_left (fun rcs url =>
                                utils.AddRepositoryContext rcs OCIRegistryType url)
                     urls rcs)
            /\ (length (fold_left (fun rcs url =>
                                     utils.AddRepositoryContext rcs OCIRegistryType url)
                          urls rcs)
                <= length rcs + length urls)%nat) as Hfold.
  { induction urls as [| url urls IH]; intros rcs Hnd; simpl; [split; [done | lia] |].
    destruct (IH _ (NoDup_AddRepositoryContext rcs OCIRegistryType url Hnd))
      as [Hnd' Hlen].
    split; [done |]. etrans; [exact Hlen |].
    unfold utils.AddRepositoryContext. case_decide; [lia |].
    rewrite length_app. simpl. lia. }
  destruct (Hfold (componentarchive.OCIRegistryURLs o) [] (NoDup_nil_2))
    as [Hnd Hlen].
  split_and!; [done | done |].
  intros Hurls. rewrite fold_AddRepositoryContext_fresh; [done | done |].
  intros url _ Hin. by apply not_elem_of_nil in Hin.
Qed.

Lemma init_registry_contexts_witness :
  RepositoryContexts
    (componentarchive.addRegistryContexts ["my.oci.registry"; "other.registry"]
       (componentarchive.baseDescriptor initOpts))
  = [componentarchive.ociContext "my.oci.registry"; componentarchive.ociContext "other.registry"].
Proof.
  destruct (init_registry_contexts
              {| componentarchive.ComponentArchivePath := "arch";
                 componentarchive.ComponentName := "component-name";
                 componentarchive.ComponentVersion := "1.0.0";
                 componentarchive.OCIRegistryURLs :=
                   ["my.oci.registry"; "other.registry"] |})
    as (_ & _ & Horder).
  apply Horder. simpl. apply NoDup_cons. split.
  - intros Hin%list_elem_of_singleton. discriminate.
  - apply NoDup_singleton.
Defined.

(** *** The options and the command *)

Section InitOptionsChecks.
Variable semver_NewVersion : string -> option Error.

Lemma validate_None (o : componentarchive.InitOptions) :
  componentarchive.validate semver_NewVersion o = None
  <-> componentarchive.ComponentName o ≠ EmptyString
      /\ semver_NewVersion (componentarchive.ComponentVersion o) = None
      /\ componentarchive.OCIRegistryURLs o ≠ [].
Proof.
  unfold componentarchive.validate.
  case_decide as Hname; rewrite String_length_zero in Hname.
  - split; [done | tauto].
  - destruct (semver_NewVersion _); [split; [done | by intros (_ & ? & _)] |].
    case_decide as Hurls; rewrite length_zero_iff_nil in Hurls.
    + split; [done | tauto].
    + done.
Qed.

(** X15. [Complete] accepts exactly one argument together with a name that is
    not empty, a version that [semver.NewVersion] accepts and at least one
    registry URL.  With one argument the archive path becomes that argument,
    also when the options are then refused, and the three checks report in
    that order: the name first, the version next, the registries last.
    With any other number of arguments the options stay as they are. *)
Theorem Complete_accepts_exactly (args : list string)
    (o : componentarchive.InitOptions) :
  let out := componentarchive.Complete semver_NewVersion args o in
  (out.1 = inr tt
   <-> exists arg, args = [arg]
                   /\ componentarchive.ComponentName o ≠ EmptyString
                   /\ semver_NewVersion (componentarchive.ComponentVersion o) = None
                   /\ componentarchive.OCIRegistryURLs o ≠ [])
  /\ (length args ≠ 1%nat ->
      out = (inl (Errorf "expected exactly one argument that contains the path to the component archive"), o))
  /\ (forall arg, args = [arg] ->
        out.2 = componentarchive.set_ComponentArchivePath arg o
        /\ (componentarchive.ComponentName o = EmptyString ->
            out.1 = inl (Errorf "component name must not be empty"))
        /\ (componentarchive.ComponentName o ≠ EmptyString ->
            semver_NewVersion (componentarchive.ComponentVersion o) ≠ None ->
            out.1 = inl (Errorf "component version must be a valid SemVer"))
        /\ (componentarchive.ComponentName o ≠ EmptyString ->
            semver_NewVersion (componentarchive.ComponentVersion o) = None ->
            componentarchive.OCIRegistryURLs o = [] ->
            out.1 = inl (Errorf "at least one oci registry must be provided"))).
Proof.
  intros out. subst out. unfold componentarchive.Complete.
  destruct args as [| arg [| arg' args]]; simpl.
  - split_and!; [| done | done]. split; [done | by intros (? & ? & _)].
  - pose proof (validate_None (componentarchive.set_ComponentArchivePath arg o))
      as Hval. simpl in Hval.
    split_and!.
    + destruct (componentarchive.validate _ _).
      * split; [done |]. intros (? & _ & H). by apply Hval in H.
      * split; [| done]. intros _. exists arg. split; [done |]. by apply Hval.
    + done.
    + intros ? [= <-]. unfold componentarchive.validate; simpl.
      split_and!; [done | | |].
      * intros ->. done.
      * intros Hname Hver. rewrite decide_False by by rewrite String_length_zero.
        by destruct (semver_NewVersion _).
      * intros Hname Hver ->. rewrite decide_False by by rewrite String_length_zero.
        by rewrite Hver.
  - split_and!; [| done | done]. split; [done | by intros (? & ? & _)].
Qed.

End InitOptionsChecks.

Section InitCommandChecks.
Context {FS Data : Type} `{!FileSystem FS Data}.
Variable semver_NewVersion : string -> option Error.
Variable Validate : ComponentDescriptor -> option Error.
Variable Marshal : ComponentDescriptor -> Error + Data.

(** X16. The command completes its options before it runs: with a wrong number
    of arguments, an empty name, a version that is no SemVer or no registry
    it ends with an error and the file system is not touched.  Otherwise it
    is [Run] on the argument as archive path, and the descriptor that [Run]
    builds has a name and at least one repository context. *)
Theorem init_command_checks_options_first (args : list string)
    (o : componentarchive.InitOptions) (fs : FS) :
  let out := componentarchive.NewInitCommand_Run semver_NewVersion Validate Marshal
               args (o, fs) in
  (length args ≠ 1%nat
   \/ componentarchive.ComponentName o = EmptyString
   \/ semver_NewVersion (componentarchive.ComponentVersion o) ≠ None
   \/ componentarchive.OCIRegistryURLs o = [] ->
   (exists err, out.1 = inl err) /\ out.2.2 = fs)
  /\ (forall arg, args = [arg] ->
        componentarchive.ComponentName o ≠ EmptyString ->
        semver_NewVersion (componentarchive.ComponentVersion o) = None ->
        componentarchive.OCIRegistryURLs o ≠ [] ->
        let o' := componentarchive.set_ComponentArchivePath arg o in
        let cd := componentarchive.addRegistryContexts
                    (componentarchive.OCIRegistryURLs o')
                    (componentarchive.baseDescriptor o') in
        out = ((componentarchive.Run Validate Marshal o' fs).1,
               (o', (componentarchive.Run Validate Marshal o' fs).2))
        /\ CDName cd ≠ EmptyString
        /\ RepositoryContexts cd ≠ []).
Proof.
  intros out. subst out.
  unfold componentarchive.NewInitCommand_Run, componentarchive.Complete.
  assert (forall o' : componentarchive.InitOptions,
            componentarchive.OCIRegistryURLs o' ≠ [] ->
            RepositoryContexts
              (componentarchive.addRegistryContexts
                 (componentarchive.OCIRegistryURLs o')
                 (componentarchive.baseDescriptor o')) ≠ []) as Hcontexts.
  { intros o' Hurls. rewrite addRegistryContexts_eq. simpl.
    destruct (componentarchive.OCIRegistryURLs o') as [| url urls]; [done |].
    simpl. intros Hnil.
    assert (componentarchive.ociContext url
              ∈ fold_left (fun rcs u => utils.AddRepositoryContext rcs OCIRegistryType u)
                  urls (utils.AddRepositoryContext [] OCIRegistryType url)) as Hin.
    { apply elem_of_fold_AddRepositoryContext. left.
      apply elem_of_AddRepositoryContext. by right. }
    rewrite Hnil in Hin. by apply not_elem_of_nil in Hin. }
  destruct args as [| arg [| arg' args]]; simpl.
  - split; [by eauto | done].
  - pose proof (validate_None semver_NewVersion
                  (componentarchive.set_ComponentArchivePath arg o)) as Hval.
    simpl in Hval.
    destruct (componentarchive.validate semver_NewVersion _) as [err |]; simpl.
    + split; [by eauto |].
      intros ? [= <-] Hname Hver Hurls.
      assert (Some err = None) as Habs by by apply Hval. discriminate.
    + destruct Hval as [Hval _]. destruct (Hval eq_refl) as (Hname & Hver & Hurls).
      split.
      * intros [Hlen | [? | [? | ?]]]; done.
      * intros ? [= <-] _ _ _. split_and!.
        -- destruct (componentarchive.Run Validate Marshal _ fs) as [[err | u] fs'];
             [done | by destruct u].
        -- by rewrite addRegistryContexts_eq.
        -- exact (Hcontexts (componentarchive.set_ComponentArchivePath arg o) Hurls).
  - split; [by eauto | done].
Qed.

End InitCommandChecks.

Lemma Complete_accepts_exactly_witness :
  componentarchive.Complete newVersion ["arch"] flagOpts = (inr tt, initOpts)
  /\ componentarchive.Complete newVersion ["arch"; "extra"] flagOpts
     = (inl (Errorf "expected exactly one argument that contains the path to the component archive"),
        flagOpts)
  /\ (componentarchive.Complete newVersion ["arch"]
        {| componentarchive.ComponentArchivePath := EmptyString;
           componentarchive.ComponentName := "component-name";
           componentarchive.ComponentVersion := "latest";
           componentarchive.OCIRegistryURLs := [] |}).1
     = inl (Errorf "component version must be a valid SemVer").
Proof.
  split_and!.
  - destruct (Complete_accepts_exactly newVersion ["arch"] flagOpts)
      as ([_ Hok] & _ & Hone).
    destruct (Hone "arch" eq_refl) as (Hpath & _).
    destruct (componentarchive.Complete newVersion ["arch"] flagOpts) as [r o'].
    simpl in *. rewrite Hpath, Hok; [done |].
    exists "arch". by split_and!.
  - destruct (Complete_accepts_exactly newVersion ["arch"; "extra"] flagOpts)
      as (_ & Hargs & _).
    apply Hargs. simpl. lia.
  - destruct (Complete_accepts_exactly newVersion ["arch"]
                {| componentarchive.ComponentArchivePath := EmptyString;
                   componentarchive.ComponentName := "component-name";
                   componentarchive.ComponentVersion := "latest";
                   componentarchive.OCIRegistryURLs := [] |})
      as (_ & _ & Hone).
    destruct (Hone "arch" eq_refl) as (_ & _ & Hver & _).
    apply Hver; done.
Defined.

Lemma init_command_checks_options_first_witness :
  (exists err,
     (componentarchive.NewInitCommand_Run newVersion validate marshal []
        (flagOpts, archiveWith emptyDescriptor [])).1 = inl err)
  /\ (componentarchive.NewInitCommand_Run newVersion validate marshal []
        (flagOpts, archiveWith emptyDescriptor [])).2.2
     = archiveWith emptyDescriptor []
  /\ componentarchive.NewInitCommand_Run newVersion validate marshal ["arch"]
       (flagOpts, archiveWith emptyDescriptor [])
     = (inr tt,
        (initOpts,
         (memoryfs.writeFile (archiveWith emptyDescriptor []) descriptorPath
            (DescriptorFile freshDescriptor) 420).2)).
Proof.
  destruct (init_command_checks_options_first newVersion validate marshal []
              flagOpts (archiveWith emptyDescriptor [])) as [Hbad _].
  destruct Hbad as [Herr Hfs]; [left; simpl; lia |].
  split_and!; [exact Herr | exact Hfs |].
  destruct (init_command_checks_options_first newVersion validate marshal ["arch"]
              flagOpts (archiveWith emptyDescriptor [])) as [_ Hgood].
  destruct (Hgood "arch" eq_refl) as (Hrun & _ & _); [done.. |].
  rewrite Hrun. reflexivity.
Defined.

(** ** The commands on the in-memory file system *)

Lemma memoryfs_open_after_write {Data : Type} (fs fs' : memoryfs.t Data)
    (path : string) (data : Data) (perm : FileMode) :
  WriteFile fs path data perm = (None, fs') -> Open fs' path = inr data.
Proof.
  simpl. unfold memoryfs.writeFile, memoryfs.open.
  destruct (memoryfs.nodes fs !! path) as [[| c] |]; [discriminate | |];
    intros [= <-]; simpl; by rewrite lookup_insert_eq.
Qed.

Section OnDisk.
Context {FS Data : Type} `{!FileSystem FS Data}.
Variable env : Env FS Data.

(** A template that goes through, with or without an input, ends in the
    write of the serialization of the validated descriptor. *)
Lemma addResource_persisted (o : Options) (path : string) (t : ResourceOptions)
    (st st' : ComponentDescriptor * FS) :
  addResource env o path t st = (inr tt, st') ->
  Validate env st'.1 = None
  /\ exists (data : Data) (fs1 : FS),
       Marshal env st'.1 = inr data
       /\ WriteFile fs1 path data 436 = (None, st'.2).
Proof.
  unfold addResource, bind.
  destruct (match Input t with
            | Some inp => addInputBlob env o t inp
            | None => upsert env (Resource_ t)
            end st) as [[err | u] [cd1 fs1]]; [discriminate |].
  rewrite persist_eq, encode_eq.
  destruct (Validate env cd1) eqn:Hv; [discriminate |].
  destruct (Marshal env cd1) as [err | data] eqn:Hm; [discriminate |].
  destruct (WriteFile fs1 path data 436) as [[err |] fs2] eqn:Hw; simpl;
    [discriminate |].
  intros [= <-]. simpl. split; [done |]. by exists data, fs1.
Qed.

Lemma runLoop_last (o : Options) (ts : list ResourceOptions) (t : ResourceOptions)
    (st st' : ComponentDescriptor * FS) :
  runLoop env o (ts ++ [t]) st = (inr tt, st') ->
  exists st1, addResource env o (resources.compDescFilePath o) t st1 = (inr tt, st').
Proof.
  rewrite runLoop_app.
  destruct (runLoop env o ts st) as [[err | u] st1]; [discriminate |].
  rewrite runLoop_cons.
  destruct (addResource env o _ t st1) as [[err | u'] st2] eqn:Hadd; [discriminate |].
  simpl. intros [= <-]. exists st1. by destruct u'.
Qed.

End OnDisk.

(** X17. When [add] has processed at least one template and returns no error,
    the descriptor file on the in-memory file system holds the
    serialization of the descriptor that the archive holds in memory, and
    that descriptor passed the validation. *)
Theorem add_leaves_validated_descriptor_on_disk {Data : Type}
    (env : Env (memoryfs.t Data) Data) (o : Options)
    (ts : list ResourceOptions)
    (st st' : ComponentDescriptor * memoryfs.t Data) :
  ts ≠ [] ->
  runLoop env o ts st = (inr tt, st') ->
  Validate env st'.1 = None
  /\ exists data : Data,
       Marshal env st'.1 = inr data
       /\ Open st'.2 (resources.compDescFilePath o) = inr data.
Proof.
  intros Hne Hrun.
  destruct (exists_last Hne) as (ts0 & t & ->).
  destruct (runLoop_last env o ts0 t st st' Hrun) as [st1 Hadd].
  destruct (addResource_persisted env o _ t st1 st' Hadd)
    as (Hv & data & fs1 & Hm & Hw).
  split; [done |]. exists data. split; [done |].
  by eapply memoryfs_open_after_write.
Qed.

Lemma add_leaves_validated_descriptor_on_disk_witness :
  Open (runLoop env opts [myimage; myconfig]
          (emptyDescriptor, archiveWithInput emptyDescriptor)).2.2 descriptorPath
  = marshal (runLoop env opts [myimage; myconfig]
               (emptyDescriptor, archiveWithInput emptyDescriptor)).2.1.
Proof.
  destruct (add_leaves_validated_descriptor_on_disk env opts [myimage; myconfig]
              (emptyDescriptor, archiveWithInput emptyDescriptor)
              (runLoop env opts [myimage; myconfig]
                 (emptyDescriptor, archiveWithInput emptyDescriptor)).2)
    as (_ & data & Hm & Ho); [done | reflexivity |].
  exact (eq_trans Ho (eq_sym Hm)).
Defined.

Lemma memoryfs_lawful {Data : Type} : FileSystemLaws (memoryfs.t Data) Data.
Proof.
  split.
  - apply memoryfs_open_after_write.
  - intros fs fs' path perm. simpl. unfold memoryfs.mkdirAll, memoryfs.stat.
    destruct (memoryfs.nodes fs !! path) as [[| c] |]; [| discriminate |];
      intros [= <-]; simpl; by rewrite lookup_insert_eq.
  - intros fs fs' dir path data perm. simpl.
    unfold memoryfs.writeFile, memoryfs.stat.
    destruct (memoryfs.nodes fs !! path) as [[| c] |] eqn:Hpath; [discriminate | |];
      intros [= <-] Hdir; simpl;
      (destruct (decide (path = dir)) as [-> | Hne];
       [by rewrite Hpath in Hdir | by rewrite lookup_insert_ne]).
Qed.

Section InitSuccess.
Context {FS Data : Type} `{!FileSystem FS Data}.
Variable Validate : ComponentDescriptor -> option Error.
Variable Marshal : ComponentDescriptor -> Error + Data.

(** X18. On a file system where a written file reads back as written, a
    directory made by [MkdirAll] is a directory and a write leaves a
    directory a directory: whenever [init] returns no error, the archive
    path is a directory, the fresh descriptor passed the validation, and
    the descriptor file holds its serialization. *)
Theorem init_success_leaves_descriptor (o : componentarchive.InitOptions)
    (fs fs' : FS) :
  FileSystemLaws FS Data ->
  componentarchive.Run Validate Marshal o fs = (inr tt, fs') ->
  let cd := componentarchive.addRegistryContexts
              (componentarchive.OCIRegistryURLs o)
              (componentarchive.baseDescriptor o) in
  Validate cd = None
  /\ Stat fs' (componentarchive.ComponentArchivePath o) = inr {| IsDir := true |}
  /\ exists data : Data,
       Marshal cd = inr data
       /\ Open fs' (componentarchive.compDescFilePath o) = inr data.
Proof.
  intros Hlaws Hrun cd. unfold componentarchive.Run, bind in Hrun.
  destruct (componentarchive.ensureDirectory o fs) as [[err | u] fs0] eqn:Hdir;
    [discriminate |].
  assert (Stat fs0 (componentarchive.ComponentArchivePath o)
          = inr {| IsDir := true |}) as Hstat.
  { unfold componentarchive.ensureDirectory in Hdir.
    destruct (Stat fs (componentarchive.ComponentArchivePath o))
      as [err | [isdir]] eqn:Hs.
    - destruct (os_IsNotExist err); [| discriminate].
      destruct (MkdirAll fs _ componentarchive.os_ModeDir) as [[e |] fs1] eqn:Hmk;
        [discriminate |].
      assert (fs1 = fs0) as -> by congruence.
      by eapply (Stat_after_MkdirAll FS Data Hlaws).
    - destruct isdir; simpl in Hdir; [| discriminate].
      assert (fs = fs0) as <- by congruence. done. }
  unfold wrapping, attempt, DefaultComponent, throw, ret in Hrun; simpl in Hrun.
  fold cd in Hrun.
  destruct (Validate cd) eqn:Hv; [discriminate |]. simpl in Hrun.
  destruct (Marshal cd) as [err | data] eqn:Hm; [discriminate |]. simpl in Hrun.
  destruct (WriteFile fs0 (componentarchive.compDescFilePath o) data 420)
    as [[err |] fs2] eqn:Hw; [discriminate |].
  assert (fs2 = fs') as -> by congruence. split_and!.
  - done.
  - by eapply (Stat_dir_after_WriteFile FS Data Hlaws).
  - exists data. split; [done |]. by eapply (Open_after_WriteFile FS Data Hlaws).
Qed.

End InitSuccess.

Lemma init_success_leaves_descriptor_witness :
  Stat (componentarchive.Run validate marshal initNew
          (archiveWith emptyDescriptor [])).2 "new" = inr {| IsDir := true |}
  /\ Open (componentarchive.Run validate marshal initNew
             (archiveWith emptyDescriptor [])).2 "new/component-descriptor.yaml"
     = inr (DescriptorFile freshDescriptor).
Proof.
  destruct (init_success_leaves_descriptor validate marshal initNew
              (archiveWith emptyDescriptor [])
              (componentarchive.Run validate marshal initNew
                 (archiveWith emptyDescriptor [])).2 memoryfs_lawful)
    as (_ & Hstat & data & Hm & Hopen); [reflexivity |].
  split; [exact Hstat |].
  injection Hm as <-. exact Hopen.
Defined.
